(** * musicid-backend: the ACRCloud gateway of [server.js]

    A shallow embedding of the request-signing and response-normalising
    code of [server.js], together with the part of the JavaScript runtime
    the code relies on (values, property reads, the conversions applied by
    [||], [&&], [>], [*], [/], template literals, [Math.floor] and
    [Math.round]), and the properties proved about it. *)

From Stdlib Require Import ZArith NArith List String Ascii Bool Lia.
From Stdlib Require Import DecimalString.
From Stdlib Require Import Floats.SpecFloat.
Import ListNotations.

Local Open Scope string_scope.

(** ** The Number type

    A JavaScript Number is an IEEE 754 binary64 value.  It is modelled by
    the Standard Library's [spec_float] with precision 53 and maximal
    exponent 1024; its arithmetic is the library's specification of the
    IEEE operations. *)

Module Number.

Definition number : Type := spec_float.

Definition prec : Z := 53.
Definition emax : Z := 1024.

Definition NaN : number := S754_nan.

(** The Number nearest to an integer (round to nearest, ties to even). *)
Definition of_Z (z : Z) : number := binary_normalize prec emax z 0 false.

Definition mul : number -> number -> number := SFmul prec emax.
Definition div : number -> number -> number := SFdiv prec emax.

(** [x === y] and [x < y] on Numbers. *)
Definition eqb : number -> number -> bool := SFeqb.
Definition ltb : number -> number -> bool := SFltb.

Definition is_nan (x : number) : bool :=
  match x with S754_nan => true | _ => false end.

Definition is_zero (x : number) : bool :=
  match x with S754_zero _ => true | _ => false end.

(** [Math.floor]: the greatest integral Number not above [x].  A finite
    [x] is [(-1)^s * m * 2^e]; with [e >= 0] it is integral already. *)
Definition floor (x : number) : number :=
  match x with
  | S754_finite s m e =>
      if (0 <=? e)%Z then x
      else of_Z (Z.shiftr (cond_Zopp s (Zpos m)) (- e))
  | _ => x
  end.

(** [Math.round]: the integral Number closest to [x], ties towards
    positive infinity, that is [floor (x + 1/2)] computed exactly; a
    result of zero keeps the sign of [x]. *)
Definition round (x : number) : number :=
  match x with
  | S754_finite s m e =>
      if (0 <=? e)%Z then x
      else binary_normalize prec emax
             (Z.shiftr (2 * cond_Zopp s (Zpos m) + 2 ^ (- e)) (1 - e)) 0 s
  | _ => x
  end.

(** The Number nearest to [digits * 10^e10], negated when [neg]. *)
Definition of_decimal (neg : bool) (digits : N) (e10 : Z) : number :=
  match digits with
  | N0 => S754_zero neg
  | Npos m =>
      if (0 <=? e10)%Z
      then binary_round prec emax neg (m * Z.to_pos (10 ^ e10)) 0
      else div (S754_finite neg m 0)
               (S754_finite false (Z.to_pos (10 ^ (- e10))) 0)
  end.

(** *** Number::toString (radix 10)

    The digits are the shortest decimal [s * 10^(n-k)], with [k] digits,
    that converts back to the Number; among several, the closest to it. *)

Definition same (x y : number) : bool :=
  match x, y with
  | S754_zero a, S754_zero b => Bool.eqb a b
  | S754_infinity a, S754_infinity b => Bool.eqb a b
  | S754_nan, S754_nan => true
  | S754_finite a m e, S754_finite b m' e' =>
      Bool.eqb a b && Pos.eqb m m' && Z.eqb e e'
  | _, _ => false
  end.

(** The first integer from [n] on that satisfies [p], within [fuel] steps. *)
Fixpoint first_such (fuel : nat) (p : Z -> bool) (n : Z) : Z :=
  match fuel with
  | O => n
  | S fuel' => if p n then n else first_such fuel' p (n + 1)
  end.

(** The [n] with [10^(n-1) <= num/den < 10^n], for positive [num], [den]. *)
Definition decimal_exponent (num den : Z) : Z :=
  if (den <=? num)%Z
  then first_such (S (Z.to_nat (Z.log2 num)))
         (fun n => (num <? den * 10 ^ n)%Z) 1
  else (1 - first_such (S (Z.to_nat (Z.log2 den)))
              (fun j => (den <=? num * 10 ^ j)%Z) 1)%Z.

(** [num/den * 10^(k-n)] as a fraction. *)
Definition scaled (num den n k : Z) : Z * Z :=
  if (n <=? k)%Z then (num * 10 ^ (k - n), den)%Z
  else (num, den * 10 ^ (n - k))%Z.

(** The candidates with [k] digits for [x = num/den]: the result is the
    pair [(s, n)] when one of them converts back to [x]. *)
Definition digits_of_length (x : number) (num den n k : Z) : option (Z * Z) :=
  let '(P, Q) := scaled num den n k in
  let lo := (P / Q)%Z in
  let hi := if (lo + 1 =? 10 ^ k)%Z then (10 ^ (k - 1), n + 1)%Z
            else (lo + 1, n)%Z in
  let back (c : Z * Z) := same (of_decimal false (Z.to_N (fst c)) (snd c - k)) x in
  match back (lo, n), back hi with
  | true, true =>
      match (2 * P ?= (2 * lo + 1) * Q)%Z with
      | Lt => Some (lo, n)
      | Gt => Some hi
      | Eq => if Z.even lo then Some (lo, n) else Some hi
      end
  | true, false => Some (lo, n)
  | false, true => Some hi
  | false, false => None
  end.

(** The least [k] from [k] on with such digits; 17 digits always convert
    back to a binary64 value, so the search ends by then. *)
Fixpoint shortest_from (fuel : nat) (x : number) (num den n k : Z) : Z * Z * Z :=
  match fuel with
  | O => let '(P, Q) := scaled num den n k in ((P / Q)%Z, n, k)
  | S fuel' =>
      match digits_of_length x num den n k with
      | Some (s, n') => (s, n', k)
      | None => shortest_from fuel' x num den n (k + 1)
      end
  end.

(** [(s, n, k)] for the positive finite Number [m * 2^e]. *)
Definition shortest (m : positive) (e : Z) : Z * Z * Z :=
  let num := if (0 <=? e)%Z then (Zpos m * 2 ^ e)%Z else Zpos m in
  let den := if (0 <=? e)%Z then 1%Z else (2 ^ (- e))%Z in
  shortest_from 17 (binary_round prec emax false m e) num den
    (decimal_exponent num den) 1.

Definition decimal (z : Z) : string := NilZero.string_of_int (Z.to_int z).

Fixpoint zeros (n : nat) : string :=
  match n with O => "" | S n' => String "0" (zeros n') end.

Definition exponent_part (n : Z) : string :=
  "e" ++ (if (0 <=? n - 1)%Z then "+" else "-") ++ decimal (Z.abs (n - 1)).

Definition layout (s n k : Z) : string :=
  let ds := decimal s in
  if ((k <=? n) && (n <=? 21))%Z then ds ++ zeros (Z.to_nat (n - k))
  else if ((0 <? n) && (n <=? 21))%Z then
    substring 0 (Z.to_nat n) ds ++ "." ++ substring (Z.to_nat n) (Z.to_nat (k - n)) ds
  else if ((-6 <? n) && (n <=? 0))%Z then "0." ++ zeros (Z.to_nat (- n)) ++ ds
  else if (k =? 1)%Z then ds ++ exponent_part n
  else substring 0 1 ds ++ "." ++ substring 1 (Z.to_nat (k - 1)) ds ++ exponent_part n.

Definition to_string (x : number) : string :=
  match x with
  | S754_nan => "NaN"
  | S754_zero _ => "0"
  | S754_infinity s => if s then "-Infinity" else "Infinity"
  | S754_finite s m e =>
      let '(d, n, k) := shortest m e in
      (if s then "-" else "") ++ layout d n k
  end.

(** *** StringToNumber

    The conversion of a String to a Number: white space is trimmed, the
    empty string is [+0], and the rest must be a decimal literal (with an
    optional sign, fraction and exponent), [Infinity] with an optional
    sign, or an unsigned binary, octal or hexadecimal integer literal;
    anything else is [NaN]. *)

Definition is_white_space (c : ascii) : bool :=
  let n := nat_of_ascii c in
  ((9 <=? n) && (n <=? 13) || (n =? 32) || (n =? 160))%nat.

Fixpoint trim_start (s : string) : string :=
  match s with
  | String c s' => if is_white_space c then trim_start s' else s
  | EmptyString => s
  end.

Definition reverse (s : string) : string :=
  string_of_list_ascii (rev (list_ascii_of_string s)).

Definition trim (s : string) : string :=
  reverse (trim_start (reverse (trim_start s))).

Definition digit_value (base : N) (c : ascii) : option N :=
  let n := N_of_ascii c in
  let d := if ((48 <=? n) && (n <=? 57))%N then Some (n - 48)%N
           else if ((97 <=? n) && (n <=? 102))%N then Some (n - 87)%N
           else if ((65 <=? n) && (n <=? 70))%N then Some (n - 55)%N
           else None in
  match d with
  | Some v => if (v <? base)%N then Some v else None
  | None => None
  end.

(** Reads the longest prefix of digits: the value accumulated from [acc],
    the number of digits read, and the rest of the string. *)
Fixpoint read_digits (base : N) (s : string) (acc : N) (count : nat)
  : N * nat * string :=
  match s with
  | String c s' =>
      match digit_value base c with
      | Some d => read_digits base s' (acc * base + d)%N (S count)
      | None => (acc, count, s)
      end
  | EmptyString => (acc, count, s)
  end.

Definition integer_literal (base : N) (s : string) : number :=
  match read_digits base s 0 0 with
  | (v, S _, EmptyString) => of_Z (Z.of_N v)
  | _ => NaN
  end.

Definition unsigned_decimal_literal (neg : bool) (s : string) : number :=
  if String.eqb s "Infinity" then S754_infinity neg else
  let '(i, ni, r1) := read_digits 10 s 0 0 in
  let '(f, nf, r2) :=
    match r1 with
    | String "." r => read_digits 10 r i 0
    | _ => (i, O, r1)
    end in
  match (ni + nf)%nat, r2 with
  | O, _ => NaN
  | _, EmptyString => of_decimal neg f (- Z.of_nat nf)
  | _, String c r3 =>
      if (Ascii.eqb c "e" || Ascii.eqb c "E")%char then
        let '(eneg, r4) :=
          match r3 with
          | String "+" r => (false, r)
          | String "-" r => (true, r)
          | _ => (false, r3)
          end in
        match read_digits 10 r4 0 0 with
        | (ev, S _, EmptyString) =>
            of_decimal neg f (cond_Zopp eneg (Z.of_N ev) - Z.of_nat nf)
        | _ => NaN
        end
      else NaN
  end.

Definition of_string (str : string) : number :=
  match trim str with
  | EmptyString => S754_zero false
  | String "0" (String "x" r) | String "0" (String "X" r) => integer_literal 16 r
  | String "0" (String "o" r) | String "0" (String "O" r) => integer_literal 8 r
  | String "0" (String "b" r) | String "0" (String "B" r) => integer_literal 2 r
  | String "+" r => unsigned_decimal_literal false r
  | String "-" r => unsigned_decimal_literal true r
  | s => unsigned_decimal_literal false s
  end.

End Number.

(** ** JavaScript values and the operations [server.js] applies to them *)

Module JS.
Import Number.

#[local] Set Warnings "-register-all".

(** A value: [undefined], or what [JSON.parse] builds.  A String holds
    one character per code unit, so that its length and its indices are
    those of the JavaScript string (code units above 255 have no
    counterpart); an object holds its own properties in creation order. *)
Inductive value : Type :=
| VUndefined
| VNull
| VBool (b : bool)
| VNum (n : number)
| VStr (s : string)
| VArr (elems : list value)
| VObj (props : list (string * value)).

(** A thrown exception, with its [name] and [message]. *)
Inductive exn : Type :=
| Error (name message : string).

Definition TypeError (message : string) : exn := Error "TypeError" message.

Definition message (e : exn) : string :=
  match e with Error _ m => m end.

(** The completion of an evaluation: a value, or a thrown exception. *)
Inductive result (A : Type) : Type :=
| Ok (a : A)
| Throw (e : exn).

Arguments Ok {A} a.
Arguments Throw {A} e.

Definition bind {A B : Type} (c : result A) (k : A -> result B) : result B :=
  match c with
  | Ok a => k a
  | Throw e => Throw e
  end.

Declare Scope js_scope.
Delimit Scope js_scope with js.
Notation "x <- c ;; k" := (bind c (fun x => k))
  (at level 61, c at next level, right associativity) : js_scope.
Local Open Scope js_scope.

(** ToBoolean. *)
Definition truthy (v : value) : bool :=
  match v with
  | VUndefined | VNull => false
  | VBool b => b
  | VNum n => negb (is_zero n || is_nan n)
  | VStr s => negb (String.eqb s "")
  | VArr _ | VObj _ => true
  end.

Fixpoint lookup (key : string) (props : list (string * value)) : value :=
  match props with
  | [] => VUndefined
  | (k, v) :: rest => if String.eqb k key then v else lookup key rest
  end.

Definition has_own (key : string) (props : list (string * value)) : bool :=
  existsb (fun p => String.eqb (fst p) key) props.

Definition cannot_read (base key : string) : exn :=
  TypeError ("Cannot read properties of " ++ base ++ " (reading '" ++ key ++ "')").

(** [v.key], for a [key] that no built-in prototype defines, or [length].
    Every name [server.js] reads is such a name, but [substring], which it
    only calls (see [call_substring]). *)
Definition get (v : value) (key : string) : result value :=
  match v with
  | VUndefined => Throw (cannot_read "undefined" key)
  | VNull => Throw (cannot_read "null" key)
  | VBool _ | VNum _ => Ok VUndefined
  | VStr s =>
      if String.eqb key "length" then Ok (VNum (of_Z (Z.of_nat (String.length s))))
      else Ok VUndefined
  | VArr elems =>
      if String.eqb key "length" then Ok (VNum (of_Z (Z.of_nat (List.length elems))))
      else Ok VUndefined
  | VObj props => Ok (lookup key props)
  end.

(** [v[i]] for an integer index [i]. *)
Definition get_index (v : value) (i : nat) : result value :=
  match v with
  | VUndefined => Throw (cannot_read "undefined" (decimal (Z.of_nat i)))
  | VNull => Throw (cannot_read "null" (decimal (Z.of_nat i)))
  | VBool _ | VNum _ => Ok VUndefined
  | VStr s =>
      match String.get i s with
      | Some c => Ok (VStr (String c ""))
      | None => Ok VUndefined
      end
  | VArr elems => Ok (nth i elems VUndefined)
  | VObj props => Ok (lookup (decimal (Z.of_nat i)) props)
  end.

(** [v?.key]. *)
Definition get_opt (v : value) (key : string) : result value :=
  match v with
  | VUndefined | VNull => Ok VUndefined
  | _ => get v key
  end.

(** [v.k1.k2...] and [v?.k1?.k2...]. *)
Fixpoint path (v : value) (keys : list string) : result value :=
  match keys with
  | [] => Ok v
  | k :: rest => x <- get v k ;; path x rest
  end.

Fixpoint path_opt (v : value) (keys : list string) : result value :=
  match keys with
  | [] => Ok v
  | k :: rest => x <- get_opt v k ;; path_opt x rest
  end.

Definition cannot_convert : exn :=
  TypeError "Cannot convert object to primitive value".

(** ToString.  An array is its elements joined by commas, [null] and
    [undefined] elements left empty.  An object takes [toString] from
    [Object.prototype], unless an own property hides it: a parsed value is
    never callable, so the conversion then throws. *)
Fixpoint ToString (v : value) : result string :=
  match v with
  | VUndefined => Ok "undefined"
  | VNull => Ok "null"
  | VBool b => Ok (if b then "true" else "false")
  | VNum n => Ok (to_string n)
  | VStr s => Ok s
  | VArr elems =>
      (fix join (l : list value) : result string :=
         match l with
         | [] => Ok ""
         | x :: rest =>
             s <- match x with
                  | VUndefined | VNull => Ok ""
                  | _ => ToString x
                  end ;;
             match rest with
             | [] => Ok s
             | _ => t <- join rest ;; Ok (s ++ "," ++ t)
             end
         end) elems
  | VObj props =>
      if has_own "toString" props then Throw cannot_convert
      else Ok "[object Object]"
  end.

(** ToNumber. *)
Definition ToNumber (v : value) : result number :=
  match v with
  | VUndefined => Ok NaN
  | VNull => Ok (S754_zero false)
  | VBool b => Ok (if b then of_Z 1 else S754_zero false)
  | VNum n => Ok n
  | VStr s => Ok (of_string s)
  | VArr _ | VObj _ => s <- ToString v ;; Ok (of_string s)
  end.

(** [v === n] for a Number [n]. *)
Definition strict_eq_number (v : value) (n : number) : bool :=
  match v with
  | VNum x => eqb x n
  | _ => false
  end.

(** [v > n] for a Number [n]. *)
Definition greater_than (v : value) (n : number) : result bool :=
  x <- ToNumber v ;; Ok (ltb n x).

(** [v * n] and [v / n] for a Number [n]. *)
Definition times (v : value) (n : number) : result number :=
  x <- ToNumber v ;; Ok (mul x n).

Definition divided_by (v : value) (n : number) : result number :=
  x <- ToNumber v ;; Ok (div x n).

(** [a || b], [b] being evaluated only when [a] is falsy. *)
Definition or_else (a : value) (b : result value) : result value :=
  if truthy a then Ok a else b.

(** [a && b] where only the truth of the result is used. *)
Definition and_then (a b : result bool) : result bool :=
  x <- a ;; if x then b else Ok false.

Definition test (c : result value) : result bool :=
  v <- c ;; Ok (truthy v).

(** [v.substring(start, finish)], [callee] being the text of the callee
    for the message.  Only a String has a callable [substring]. *)
Definition call_substring (callee : string) (v : value) (start finish : nat)
  : result value :=
  match v with
  | VUndefined => Throw (cannot_read "undefined" "substring")
  | VNull => Throw (cannot_read "null" "substring")
  | VStr s => Ok (VStr (substring start (finish - start) s))
  | _ => Throw (TypeError (callee ++ " is not a function"))
  end.

End JS.

(** ** [server.js] *)

Module Server.
Import Number JS.
Local Open Scope js_scope.

Definition num (z : Z) : value := VNum (of_Z z).

(** [data && data.status && data.status.code === code], the test the
    branches of [parseACRCloudResponse] start with. *)
Definition status_code_is (data : value) (code : Z) : result bool :=
  and_then (test (Ok data))
    (and_then (test (get data "status"))
       (c <- path data ["status"; "code"] ;;
        Ok (strict_eq_number c (of_Z code)))).

(** The condition of the first branch. *)
Definition identified (data : value) : result bool :=
  and_then (status_code_is data 0)
    (and_then (test (get data "metadata"))
       (and_then (test (path data ["metadata"; "music"]))
          (l <- path data ["metadata"; "music"; "length"] ;;
           greater_than l (of_Z 0)))).

(** The properties of the object literal under [song:], each from the
    first match [music]. *)

(** [music.title || 'Unknown Title'] *)
Definition title (music : value) : result value :=
  t <- get music "title" ;;
  or_else t (Ok (VStr "Unknown Title")).

(** [music.artists && music.artists.length > 0 ? music.artists[0].name
    : 'Unknown Artist'] *)
Definition artist (music : value) : result value :=
  c <- and_then (test (get music "artists"))
         (l <- path music ["artists"; "length"] ;; greater_than l (of_Z 0)) ;;
  if c then
    artists <- get music "artists" ;;
    first <- get_index artists 0 ;;
    get first "name"
  else Ok (VStr "Unknown Artist").

(** [music.album ? music.album.name : 'Unknown Album'] *)
Definition album (music : value) : result value :=
  c <- test (get music "album") ;;
  if c then path music ["album"; "name"] else Ok (VStr "Unknown Album").

(** [music.release_date ? music.release_date.substring(0, 4) : 'Unknown'] *)
Definition year (music : value) : result value :=
  c <- test (get music "release_date") ;;
  if c then
    d <- get music "release_date" ;;
    call_substring "music.release_date.substring" d 0 4
  else Ok (VStr "Unknown").

(** [Math.round(music.score * 100) || 95] *)
Definition confidence (music : value) : result value :=
  s <- get music "score" ;;
  p <- times s (of_Z 100) ;;
  or_else (VNum (round p)) (Ok (num 95)).

(** [music.duration_ms ? Math.floor(music.duration_ms / 1000) : null] *)
Definition duration (music : value) : result value :=
  c <- test (get music "duration_ms") ;;
  if c then
    d <- get music "duration_ms" ;;
    q <- divided_by d (of_Z 1000) ;;
    Ok (VNum (floor q))
  else Ok VNull.

(** [music.external_metadata?.k1?.k2...] *)
Definition external (music : value) (keys : list string) : result value :=
  m <- get music "external_metadata" ;; path_opt m keys.

Definition spotify_url (music : value) : result value :=
  external music ["spotify"; "track"; "external_urls"; "spotify"].

(** [music.external_metadata?.youtube?.vid
    ? `https://www.youtube.com/watch?v=${music.external_metadata.youtube.vid}`
    : null] *)
Definition youtube_url (music : value) : result value :=
  c <- test (external music ["youtube"; "vid"]) ;;
  if c then
    vid <- path music ["external_metadata"; "youtube"; "vid"] ;;
    s <- ToString vid ;;
    Ok (VStr ("https://www.youtube.com/watch?v=" ++ s))
  else Ok VNull.

Definition apple_url (music : value) : result value :=
  external music ["apple_music"; "url"].

(** [music.album?.artwork_url_500 || music.album?.artwork_url] *)
Definition cover_art (music : value) : result value :=
  a <- (al <- get music "album" ;; get_opt al "artwork_url_500") ;;
  or_else a (al <- get music "album" ;; get_opt al "artwork_url").

Definition preview_url (music : value) : result value :=
  external music ["spotify"; "track"; "preview_url"].

(** The object literal, its properties evaluated in order. *)
Definition song (music : value) : result value :=
  title <- title music ;;
  artist <- artist music ;;
  album <- album music ;;
  year <- year music ;;
  confidence <- confidence music ;;
  duration <- duration music ;;
  spotify_url <- spotify_url music ;;
  youtube_url <- youtube_url music ;;
  apple_url <- apple_url music ;;
  cover_art <- cover_art music ;;
  preview_url <- preview_url music ;;
  Ok (VObj [("title", title);
            ("artist", artist);
            ("album", album);
            ("year", year);
            ("confidence", confidence);
            ("duration", duration);
            ("spotify_url", spotify_url);
            ("youtube_url", youtube_url);
            ("apple_url", apple_url);
            ("cover_art", cover_art);
            ("preview_url", preview_url);
            ("isReal", VBool true)]).

(** [data.metadata.music[0]] *)
Definition first_match (data : value) : result value :=
  list <- path data ["metadata"; "music"] ;; get_index list 0.

Definition success (song : value) : value :=
  VObj [("success", VBool true); ("song", song)].

Definition failure (error : string) (code : Z) : value :=
  VObj [("success", VBool false); ("error", VStr error); ("code", num code)].

Definition unknown (data : value) : value :=
  VObj [("success", VBool false);
        ("error", VStr "Unknown response format");
        ("data", data)].

Definition parseACRCloudResponse (data : value) : result value :=
  c <- identified data ;;
  if c then
    music <- first_match data ;;
    s <- song music ;;
    Ok (success s)
  else
  c <- status_code_is data 1001 ;;
  if c then Ok (failure "No music found in database" 1001)
  else
  c <- status_code_is data 3001 ;;
  if c then Ok (failure "Invalid access key" 3001)
  else
  c <- status_code_is data 3003 ;;
  if c then Ok (failure "Rate limit exceeded" 3003)
  else Ok (unknown data).

(** *** The route [POST /api/identify]

    The handler's calls into its environment (the console, the clock, the
    [crypto] module and the network) are effects; a program is a tree of
    them, each continued with the environment's answer. *)

(** A part of the outgoing multi-part body. *)
Inductive part : Type :=
| Field (name text : string)
| FilePart (name : string) (content : list Byte.byte) (filename contentType : string).

(** What [fetch] resolves to, [json] being the completion of
    [response.json()].  The request's headers are those of the form,
    [formData.getHeaders()], and are not kept apart from it. *)
Record Response : Type := {
  ok : bool;
  status : Z;
  json : result value
}.

Inductive printable : Type :=
| Shown (v : value)
| ShownError (e : exn).

Inductive effect : Type -> Type :=
| console_log (args : list printable) : effect unit
| console_error (args : list printable) : effect unit
| Date_now : effect number
| createHmac_sha1_base64 (secret data : string) : effect string
| fetch (url method : string) (body : list part) : effect (result Response).

Inductive prog (A : Type) : Type :=
| Ret (a : A)
| Vis {X : Type} (e : effect X) (k : X -> prog A).

Arguments Ret {A} a.
Arguments Vis {A X} e k.

Notation "x <~ e ;; k" := (Vis e (fun x => k))
  (at level 61, e at next level, right associativity).

(** [process.env.NAME]: a string, or [undefined]. *)
Definition env_value : Type := option string.

(** [!v] *)
Definition missing (v : env_value) : bool :=
  match v with
  | Some s => String.eqb s ""
  | None => true
  end.

(** The text of [v] in a template literal or as a form field. *)
Definition text (v : env_value) : string :=
  match v with
  | Some s => s
  | None => "undefined"
  end.

Record Config : Type := {
  host : string;
  access_key : env_value;
  access_secret : env_value;
  endpoint : string
}.

Definition acrcloudConfig (ACRCLOUD_ACCESS_KEY ACRCLOUD_ACCESS_SECRET : env_value)
  : Config :=
  {| host := "identify-ap-southeast-1.acrcloud.com";
     access_key := ACRCLOUD_ACCESS_KEY;
     access_secret := ACRCLOUD_ACCESS_SECRET;
     endpoint := "/v1/identify" |}.

(** [req.file], as the upload middleware leaves it. *)
Record File : Type := {
  originalname : string;
  mimetype : string;
  size : N;
  buffer : list Byte.byte
}.

(** What the handler answers: [res.status(statusCode).json(body)]. *)
Record Reply : Type := {
  statusCode : Z;
  body : value
}.

Definition LF : string := String (ascii_of_nat 10) "".

Definition generateSignature (stringToSign secret : string) : prog string :=
  signature <~ createHmac_sha1_base64 secret stringToSign ;; Ret signature.

Definition stringToSign (endpoint access_key : string) (timestamp : number) : string :=
  "POST" ++ LF ++ endpoint ++ LF ++ access_key ++ LF ++ "audio" ++ LF ++ "1"
    ++ LF ++ to_string timestamp.

Definition or_default (s default : string) : string :=
  if String.eqb s "" then default else s.

Definition formData (file : File) (access_key signature : string)
    (timestamp : number) : list part :=
  [ FilePart "sample" (buffer file)
      (or_default (originalname file) "audio.wav")
      (or_default (mimetype file) "audio/wav");
    Field "sample_bytes" (to_string (of_Z (Z.of_N (size file))));
    Field "access_key" access_key;
    Field "data_type" "audio";
    Field "signature_version" "1";
    Field "signature" signature;
    Field "timestamp" (to_string timestamp) ].

(** The [catch] block. *)
Definition internal_error (error : exn) : prog Reply :=
  _ <~ console_error [Shown (VStr "Identification error:"); ShownError error] ;;
  Ret {| statusCode := 500;
         body := VObj [("error", VStr "Internal server error");
                       ("message", VStr (message error))] |}.

Definition seq {A B : Type} (p : prog A) (k : A -> prog B) : prog B :=
  (fix go (p : prog A) : prog B :=
     match p with
     | Ret a => k a
     | Vis e h => Vis e (fun x => go (h x))
     end) p.

Definition identify (config : Config) (file : option File) : prog Reply :=
  match file with
  | None =>
      Ret {| statusCode := 400;
             body := VObj [("error", VStr "No audio file provided")] |}
  | Some file =>
  if missing (access_key config) || missing (access_secret config) then
      Ret {| statusCode := 500;
             body := VObj [("error", VStr "ACRCloud API keys not configured")] |}
  else
  _ <~ console_log
         [Shown (VStr "Received audio file:");
          Shown (VObj [("originalName", VStr (originalname file));
                       ("size", VNum (of_Z (Z.of_N (size file))));
                       ("mimetype", VStr (mimetype file))])] ;;
  now <~ Date_now ;;
  let timestamp := floor (div now (of_Z 1000)) in
  let stringToSign :=
    stringToSign (endpoint config) (text (access_key config)) timestamp in
  seq (generateSignature stringToSign (text (access_secret config)))
  (fun signature =>
  let formData := formData file (text (access_key config)) signature timestamp in
  _ <~ console_log [Shown (VStr "Making request to ACRCloud...")] ;;
  let apiUrl := "https://" ++ host config ++ endpoint config in
  fetched <~ fetch apiUrl "POST" formData ;;
  match fetched with
  | Throw error => internal_error error
  | Ok response =>
  match json response with
  | Throw error => internal_error error
  | Ok data =>
  _ <~ console_log [Shown (VStr "ACRCloud response:"); Shown data] ;;
  if negb (ok response) then
    _ <~ console_error [Shown (VStr "ACRCloud API error:"); Shown data] ;;
    Ret {| statusCode := status response;
           body := VObj [("error", VStr "ACRCloud API error");
                         ("details", data)] |}
  else
  match parseACRCloudResponse data with
  | Throw error => internal_error error
  | Ok result => Ret {| statusCode := 200; body := result |}
  end
  end
  end)
  end.

(** *** Running a program

    An environment answers each effect from its state; a run records the
    effects performed, each with its answer. *)

Definition world (S : Type) : Type := forall X : Type, effect X -> S -> X * S.

Inductive call : Type :=
| Call {X : Type} (e : effect X) (answer : X).

Fixpoint run {S A : Type} (w : world S) (p : prog A) (s : S) : list call * A :=
  match p with
  | Ret a => ([], a)
  | Vis e k =>
      let '(x, s') := w _ e s in
      let '(calls, a) := run w (k x) s' in
      (Call e x :: calls, a)
  end.

(** The clock readings, the strings signed and the bodies sent in a run. *)
Definition clock (calls : list call) : list number :=
  flat_map (fun c => match c with
                     | @Call _ Date_now now => [now]
                     | _ => []
                     end) calls.

Definition signed (calls : list call) : list string :=
  flat_map (fun c => match c with
                     | Call (createHmac_sha1_base64 _ data) _ => [data]
                     | _ => []
                     end) calls.

Definition sent (calls : list call) : list (list part) :=
  flat_map (fun c => match c with
                     | Call (fetch _ _ body) _ => [body]
                     | _ => []
                     end) calls.

(** The text of the form field [name]. *)
Fixpoint field (name : string) (parts : list part) : option string :=
  match parts with
  | [] => None
  | Field n t :: rest => if String.eqb n name then Some t else field name rest
  | FilePart _ _ _ _ :: rest => field name rest
  end.

(** The digests computed in a run, each with its key, its data and the
    digest returned; the requests made, each with its answer; and the number
    of calls of [console.error]. *)
Definition digests (calls : list call) : list (string * string * string) :=
  flat_map (fun c => match c with
                     | Call (createHmac_sha1_base64 secret data) digest =>
                         [(secret, data, digest)]
                     | _ => []
                     end) calls.

Definition requests (calls : list call)
  : list (string * string * list part * result Response) :=
  flat_map (fun c => match c with
                     | Call (fetch url method body) answer =>
                         [(url, method, body, answer)]
                     | _ => []
                     end) calls.

Definition errors_logged (calls : list call) : nat :=
  List.length
    (flat_map (fun c => match c with
                        | Call (console_error args) _ => [args]
                        | _ => []
                        end) calls).

(** The file part of a body, if it has one: its field name, content, file
    name and content type. *)
Fixpoint file_part (parts : list part)
  : option (string * list Byte.byte * string * string) :=
  match parts with
  | [] => None
  | FilePart n c f t :: _ => Some (n, c, f, t)
  | Field _ _ :: rest => file_part rest
  end.

(** *** The route [GET /api/health] and the start-up messages *)

(** [a && b] on two environment values. *)
Definition both (a b : env_value) : env_value :=
  if missing a then a else b.

(** [!!(acrcloudConfig.access_key && acrcloudConfig.access_secret)] *)
Definition configured (config : Config) : bool :=
  negb (missing (both (access_key config) (access_secret config))).

(** The health check, [now] being [new Date().toISOString()]. *)
Definition health (config : Config) (now : string) : Reply :=
  {| statusCode := 200;
     body := VObj [("status", VStr "ok");
                   ("timestamp", VStr now);
                   ("acrcloud_configured", VBool (configured config))] |}.

(** [process.env.PORT || 3000], as a template literal prints it. *)
Definition port (PORT : env_value) : string :=
  if missing PORT then to_string (of_Z 3000) else text PORT.

(** The callback of [app.listen]. *)
Definition listening (PORT : env_value) (config : Config) : prog unit :=
  _ <~ console_log [Shown (VStr ("Server running on port " ++ port PORT))] ;;
  _ <~ console_log
         [Shown (VStr ("Health check: http://localhost:" ++ port PORT
                         ++ "/api/health"))] ;;
  _ <~ console_log
         [Shown (VStr ("ACRCloud configured: "
                         ++ (if configured config then "true" else "false")))] ;;
  Ret tt.

(** The texts given to [console.log] in a run, for calls with one String. *)
Definition logged (calls : list call) : list string :=
  flat_map (fun c => match c with
                     | Call (console_log [Shown (VStr line)]) _ => [line]
                     | _ => []
                     end) calls.

End Server.

(** ** Properties *)

Import Number JS Server.
Local Open Scope js_scope.

(** *** Notions used in the statements *)

(** A path is absent from [v] when a link before its end is [null] or
    [undefined], or when its end is [undefined]. *)
Fixpoint absent (v : value) (keys : list string) : bool :=
  match keys with
  | [] => match v with VUndefined => true | _ => false end
  | k :: rest =>
      match v with
      | VUndefined | VNull => true
      | _ => match get v k with
             | Ok x => absent x rest
             | Throw _ => true
             end
      end
  end.

(** [data.status.code], when [data] and its [status] are objects and the
    code is a Number. *)
Definition status_code (data : value) : option number :=
  match data with
  | VObj props =>
      match lookup "status" props with
      | VObj status =>
          match lookup "code" status with
          | VNum c => Some c
          | _ => None
          end
      | _ => None
      end
  | _ => None
  end.

(** [data.metadata.music], when [data] and its [metadata] are objects. *)
Definition music_of (data : value) : value :=
  match data with
  | VObj props =>
      match lookup "metadata" props with
      | VObj metadata => lookup "music" metadata
      | _ => VUndefined
      end
  | _ => VUndefined
  end.

(** The integer nearest to [x], ties towards positive infinity: a finite
    [x] is [(-1)^s * m * 2^e], and for [e < 0] the result is the floor of
    [x + 1/2], a zero keeping the sign of [x]. *)
Definition nearest_integer (x : number) : number :=
  match x with
  | S754_finite s m e =>
      if (e <? 0)%Z
      then binary_normalize prec emax
             ((2 * cond_Zopp s (Z.pos m) + 2 ^ (- e)) / 2 ^ (1 - e)) 0 s
      else x
  | _ => x
  end.

(** A value that is no array and no object. *)
Definition primitive (v : value) : bool :=
  match v with
  | VArr _ | VObj _ => false
  | _ => true
  end.

(** A match as the provider documents it, as far as the code reads it: an
    object whose [artists] is absent, [null] or a list that is empty or
    starts with an object; whose [release_date] is absent, [null] or a
    String; and whose [score], [duration_ms] and video id are primitive. *)
Definition well_formed (music : value) : bool :=
  match music with
  | VObj props =>
      match lookup "artists" props with
      | VUndefined | VNull | VArr [] | VArr (VObj _ :: _) => true
      | _ => false
      end
      && match lookup "release_date" props with
         | VUndefined | VNull | VStr _ => true
         | _ => false
         end
      && primitive (lookup "score" props)
      && primitive (lookup "duration_ms" props)
      && match path_opt (lookup "external_metadata" props) ["youtube"; "vid"] with
         | Ok vid => primitive vid
         | Throw _ => false
         end
  | _ => false
  end.

(** The answer of the [catch] block for the exception [e]. *)
Definition internal (e : exn) : Reply :=
  {| statusCode := 500;
     body := VObj [("error", VStr "Internal server error");
                   ("message", VStr (message e))] |}.

(** The answer to a reply the provider sent with a status that is not 2xx. *)
Definition rejected (response : Response) (data : value) : Reply :=
  {| statusCode := status response;
     body := VObj [("error", VStr "ACRCloud API error"); ("details", data)] |}.

(** The two answers given before any effect. *)
Definition no_file : Reply :=
  {| statusCode := 400;
     body := VObj [("error", VStr "No audio file provided")] |}.

Definition not_configured : Reply :=
  {| statusCode := 500;
     body := VObj [("error", VStr "ACRCloud API keys not configured")] |}.

(** *** Sample data *)

(** [{"status": {"code": code}, "metadata": {"music": music}}] *)
Definition reply (code : Z) (music : value) : value :=
  VObj [("status", VObj [("code", num code)]);
        ("metadata", VObj [("music", music)])].

(** The match of the specification's example. *)
Definition song_a : value :=
  VObj [("title", VStr "Song A");
        ("artists", VArr [VObj [("name", VStr "Artist A")]]);
        ("score", VNum (of_string "0.97"))].

(** The record built from it. *)
Definition song_a_record : value :=
  VObj [("title", VStr "Song A");
        ("artist", VStr "Artist A");
        ("album", VStr "Unknown Album");
        ("year", VStr "Unknown");
        ("confidence", num 97);
        ("duration", VNull);
        ("spotify_url", VUndefined);
        ("youtube_url", VNull);
        ("apple_url", VUndefined);
        ("cover_art", VUndefined);
        ("preview_url", VUndefined);
        ("isReal", VBool true)].

(** A match with a duration and a video, and with [null] for its Spotify
    block, and the record built from it. *)
Definition song_b : value :=
  VObj [("title", VStr "Song B");
        ("artists", VArr [VObj [("name", VStr "Artist B")]]);
        ("album", VObj [("name", VStr "Album B")]);
        ("release_date", VStr "2019-05-17");
        ("score", num 1);
        ("duration_ms", num 215999);
        ("external_metadata",
         VObj [("youtube", VObj [("vid", VStr "dQw4w9WgXcQ")]);
               ("spotify", VNull)])].

Definition song_b_record : value :=
  VObj [("title", VStr "Song B");
        ("artist", VStr "Artist B");
        ("album", VStr "Album B");
        ("year", VStr "2019");
        ("confidence", num 100);
        ("duration", num 215);
        ("spotify_url", VUndefined);
        ("youtube_url", VStr "https://www.youtube.com/watch?v=dQw4w9WgXcQ");
        ("apple_url", VUndefined);
        ("cover_art", VUndefined);
        ("preview_url", VUndefined);
        ("isReal", VBool true)].

(** A reply with code 0 and one match that has a score and nothing else,
    the record built from such a match for a given confidence, and the
    confidence the parser gives it. *)
Definition scored (score : value) : value :=
  reply 0 (VArr [VObj [("score", score)]]).

Definition unnamed (confidence : value) : value :=
  VObj [("title", VStr "Unknown Title");
        ("artist", VStr "Unknown Artist");
        ("album", VStr "Unknown Album");
        ("year", VStr "Unknown");
        ("confidence", confidence);
        ("duration", VNull);
        ("spotify_url", VUndefined);
        ("youtube_url", VNull);
        ("apple_url", VUndefined);
        ("cover_art", VUndefined);
        ("preview_url", VUndefined);
        ("isReal", VBool true)].

Definition confidence_of (score : value) : result value :=
  out <- parseACRCloudResponse (scored score) ;;
  path out ["song"; "confidence"].

(** A match that lasts 0 milliseconds. *)
Definition instant : value :=
  VObj [("title", VStr "Song A"); ("duration_ms", num 0)].

(** An environment: the console is silent, the clock starts at the state
    and advances by a second at each reading, the digest is a fixed text and
    the provider answers that it found no music. *)
Definition sample_world : world number :=
  fun X e =>
    match e in effect X return number -> X * number with
    | console_log _ => fun s => (tt, s)
    | console_error _ => fun s => (tt, s)
    | Date_now => fun s => (s, SFadd prec emax s (of_Z 1000))
    | createHmac_sha1_base64 _ _ => fun s => ("c2lnbmF0dXJl", s)
    | fetch _ _ _ =>
        fun s => (Ok {| ok := true; status := 200;
                        json := Ok (reply 1001 (VArr [])) |}, s)
    end.

Definition sample_file : File :=
  {| originalname := "clip.wav"; mimetype := "audio/wav"; size := 4;
     buffer := [] |}.

(** *** The conversions on known values *)

(** 0.1 is [0x1.999999999999ap-4], and the sum 0.1 + 0.2 prints with
    seventeen digits. *)
Example one_tenth :
  of_string "0.1" = S754_finite false 7205759403792794 (-56) /\
  to_string (S754_finite false 7205759403792794 (-56)) = "0.1" /\
  to_string (S754_finite false 5404319552844596 (-54)) = "0.30000000000000004".
Proof. repeat split; vm_compute; reflexivity. Qed.

Example to_string_layouts :
  map to_string
    [of_Z 1700000000; of_Z (10 ^ 20); of_Z (10 ^ 21); of_string "123.456";
     of_string "0.000001"; of_string "0.0000001"; of_string "-1.5e300";
     of_Z (2 ^ 53); of_string "5e-324"; of_Z (-0)] =
  ["1700000000"; "100000000000000000000"; "1e+21"; "123.456";
   "0.000001"; "1e-7"; "-1.5e+300";
   "9007199254740992"; "5e-324"; "0"].
Proof. vm_compute. reflexivity. Qed.

Example of_string_literals :
  map (fun s => to_string (of_string s))
    [""; " 42 "; "0x1F"; "-0x1F"; "1e3"; ".5"; "5."; "."; "abc"; "12px";
     "-Infinity"; "0b101"; "1_000"] =
  ["0"; "42"; "31"; "NaN"; "1000"; "0.5"; "5"; "NaN"; "NaN"; "NaN";
   "-Infinity"; "5"; "NaN"].
Proof. vm_compute. reflexivity. Qed.

(** [Math.round] rounds a tie towards positive infinity and keeps the sign
    of a zero; [Math.floor] rounds towards negative infinity. *)
Example round_and_floor :
  map (fun s => round (of_string s)) ["2.5"; "-2.5"; "0.5"; "-0.5"; "0.4"; "96.5"] =
    [of_Z 3; of_Z (-2); of_Z 1; S754_zero true; S754_zero false; of_Z 97] /\
  map (fun s => floor (of_string s)) ["2.5"; "-2.5"; "0.5"; "-0.5"; "215.999"] =
    [of_Z 2; of_Z (-3); S754_zero false; of_Z (-1); of_Z 215].
Proof. split; vm_compute; reflexivity. Qed.

(** 0.97 * 100 is 97 exactly, and 0.285 * 100 is below 28.5. *)
Example products :
  mul (of_string "0.97") (of_Z 100) = of_Z 97 /\
  round (mul (of_string "0.285") (of_Z 100)) = of_Z 28.
Proof. split; vm_compute; reflexivity. Qed.

(** *** The Number of a positive integer is positive *)

Section Positive.

Local Open Scope Z_scope.

Lemma digits2_pos_bound (m : positive) :
  2 ^ (Z.pos (digits2_pos m) - 1) <= Z.pos m.
Proof.
  induction m as [m IH | m IH |]; cbn [digits2_pos].
  - rewrite Pos2Z.inj_succ. change (Z.pos m~1) with (2 * Z.pos m + 1).
    replace (Z.succ (Z.pos (digits2_pos m)) - 1)
      with (Z.succ (Z.pos (digits2_pos m) - 1)) by lia.
    rewrite Z.pow_succ_r by lia. lia.
  - rewrite Pos2Z.inj_succ. change (Z.pos m~0) with (2 * Z.pos m).
    replace (Z.succ (Z.pos (digits2_pos m)) - 1)
      with (Z.succ (Z.pos (digits2_pos m) - 1)) by lia.
    rewrite Z.pow_succ_r by lia. lia.
  - reflexivity.
Qed.

Lemma shr_1_m (mrs : shr_record) :
  0 <= shr_m mrs -> shr_m (shr_1 mrs) = shr_m mrs / 2.
Proof.
  destruct mrs as [m r s]. cbn. intros H.
  destruct m as [| [p | p |] | p]; cbn; try reflexivity; try lia.
  - change (Z.pos p~1) with (2 * Z.pos p + 1).
    apply Z.div_unique with (r := 1); lia.
  - change (Z.pos p~0) with (2 * Z.pos p).
    apply Z.div_unique with (r := 0); lia.
Qed.

Lemma iter_shr_1_m (n : positive) :
  forall mrs, 0 <= shr_m mrs ->
    shr_m (iter_pos shr_1 n mrs) = shr_m mrs / 2 ^ Z.pos n.
Proof.
  assert (P : forall k, 0 < 2 ^ Z.pos k) by (intros; apply Z.pow_pos_nonneg; lia).
  induction n as [n IH | n IH |]; intros mrs H; cbn [iter_pos].
  - assert (H1 : 0 <= shr_m (shr_1 mrs)).
    { rewrite shr_1_m by exact H. apply Z.div_pos; lia. }
    assert (H2 : 0 <= shr_m (iter_pos shr_1 n (shr_1 mrs))).
    { rewrite IH by exact H1. apply Z.div_pos; [exact H1 | apply P]. }
    rewrite IH by exact H2. rewrite IH by exact H1. rewrite shr_1_m by exact H.
    rewrite !Z.div_div by (try apply P; lia).
    f_equal. change (Z.pos n~1) with (2 * Z.pos n + 1).
    replace (2 * Z.pos n + 1) with (1 + Z.pos n + Z.pos n) by lia.
    rewrite !Z.pow_add_r by lia. lia.
  - assert (H2 : 0 <= shr_m (iter_pos shr_1 n mrs)).
    { rewrite IH by exact H. apply Z.div_pos; [exact H | apply P]. }
    rewrite IH by exact H2. rewrite IH by exact H.
    rewrite Z.div_div by (try apply P; lia).
    f_equal. change (Z.pos n~0) with (2 * Z.pos n).
    replace (2 * Z.pos n) with (Z.pos n + Z.pos n) by lia.
    rewrite Z.pow_add_r by lia. reflexivity.
  - rewrite shr_1_m by exact H. reflexivity.
Qed.

Lemma shr_m_of_loc (m : Z) (l : location) :
  shr_m (shr_record_of_loc m l) = m.
Proof. destruct l as [| []]; reflexivity. Qed.

(** Shifting a positive mantissa to its canonical exponent leaves it
    positive, when its exponent is at least the least exponent. *)
Lemma shr_fexp_positive (m e : Z) (l : location) :
  0 < m -> SpecFloat.emin prec emax <= e ->
  0 < shr_m (fst (shr_fexp prec emax m e l)) /\
  SpecFloat.emin prec emax <= snd (shr_fexp prec emax m e l).
Proof.
  intros Hm He. unfold shr_fexp, shr.
  destruct m as [| p | p]; try lia.
  destruct (fexp prec emax (Zdigits2 (Z.pos p) + e) - e) as [| n | n] eqn:N;
    cbn [fst snd]; rewrite ?shr_m_of_loc; try (split; lia).
  rewrite iter_shr_1_m by (rewrite shr_m_of_loc; lia).
  rewrite shr_m_of_loc. split; [| lia].
  unfold fexp, Zdigits2 in N.
  assert (D := digits2_pos_bound p).
  apply Z.div_str_pos. split; [apply Z.pow_pos_nonneg; lia |].
  eapply Z.le_trans; [| exact D].
  apply Z.pow_le_mono_r; unfold prec, SpecFloat.emin in *; lia.
Qed.

Lemma round_nearest_even_positive (m : Z) (l : location) :
  0 < m -> 0 < round_nearest_even m l.
Proof.
  intros H. destruct l as [| []]; cbn; try exact H; try lia.
  destruct (Z.even m); lia.
Qed.

Lemma binary_round_aux_positive (s : bool) (m e : Z) (l : location) :
  0 < m -> SpecFloat.emin prec emax <= e ->
  (exists m' e', binary_round_aux prec emax s m e l = S754_finite s m' e') \/
  binary_round_aux prec emax s m e l = S754_infinity s.
Proof.
  intros Hm He. unfold binary_round_aux.
  destruct (shr_fexp_positive m e l Hm He) as [H1 H2].
  destruct (shr_fexp prec emax m e l) as [mrs' e']. cbn [fst snd] in H1, H2.
  pose proof (round_nearest_even_positive _ (loc_of_shr_record mrs') H1) as H3.
  destruct (shr_fexp_positive _ e' loc_Exact H3 H2) as [H4 _].
  destruct (shr_fexp prec emax
              (round_nearest_even (shr_m mrs') (loc_of_shr_record mrs'))
              e' loc_Exact) as [mrs'' e''].
  cbn [fst] in H4.
  destruct (shr_m mrs'') as [| p | p]; try lia.
  destruct (e'' <=? emax - prec); [left; eauto | right; reflexivity].
Qed.

Lemma of_Z_positive (p : positive) : ltb (of_Z 0) (of_Z (Z.pos p)) = true.
Proof.
  unfold of_Z, binary_normalize, binary_round.
  destruct (shl_align p 0 (fexp prec emax (Z.pos (digits2_pos p) + 0)))
    as [mz ez] eqn:A.
  assert (He : SpecFloat.emin prec emax <= ez).
  { unfold shl_align in A.
    destruct (fexp prec emax (Z.pos (digits2_pos p) + 0) - 0) eqn:F;
      injection A as <- <-; unfold fexp, SpecFloat.emin, prec, emax in *; lia. }
  destruct (binary_round_aux_positive false (Z.pos mz) ez loc_Exact)
    as [(m' & e' & ->) | ->]; [lia | exact He | reflexivity | reflexivity].
Qed.

End Positive.

(** A list that is not empty has a [length] above 0. *)
Lemma length_is_positive (x : value) (rest : list value) :
  (l <- get (VArr (x :: rest)) "length" ;; greater_than l (of_Z 0)) = Ok true.
Proof.
  cbn [get String.eqb Ascii.eqb Bool.eqb bind List.length].
  unfold greater_than. cbn [ToNumber bind].
  rewrite Nat2Z.inj_succ, <- Z.add_1_r.
  destruct (Z.of_nat (List.length rest) + 1)%Z eqn:E; try lia.
  rewrite of_Z_positive. reflexivity.
Qed.

(** *** Inversion of completions *)

Lemma bind_Ok {A B : Type} (c : result A) (k : A -> result B) (b : B) :
  bind c k = Ok b -> exists a, c = Ok a /\ k a = Ok b.
Proof.
  destruct c as [a | e]; simpl; intros H.
  - exists a. split; [reflexivity | exact H].
  - discriminate H.
Qed.

Ltac invert_bind H :=
  let a := fresh "v" in
  let Ha := fresh "E" in
  apply bind_Ok in H; destruct H as (a & Ha & H).

Lemma song_Ok (music s : value) :
  song music = Ok s ->
  exists t a al y c d sp yt ap ca pr,
    title music = Ok t /\ artist music = Ok a /\ album music = Ok al /\
    year music = Ok y /\ confidence music = Ok c /\ duration music = Ok d /\
    spotify_url music = Ok sp /\ youtube_url music = Ok yt /\
    apple_url music = Ok ap /\ cover_art music = Ok ca /\
    preview_url music = Ok pr /\
    s = VObj [("title", t); ("artist", a); ("album", al); ("year", y);
              ("confidence", c); ("duration", d); ("spotify_url", sp);
              ("youtube_url", yt); ("apple_url", ap); ("cover_art", ca);
              ("preview_url", pr); ("isReal", VBool true)].
Proof.
  unfold song. intros H.
  do 11 invert_bind H.
  injection H as <-.
  repeat eexists; eassumption.
Qed.

(** A reply normalised to [success s] went through the first branch: its
    first match exists and [s] is the record built from it. *)
Lemma success_inv (data s : value) :
  parseACRCloudResponse data = Ok (success s) ->
  exists music,
    identified data = Ok true /\ first_match data = Ok music /\
    song music = Ok s.
Proof.
  unfold parseACRCloudResponse. intros H.
  invert_bind H. destruct v.
  - do 2 invert_bind H. injection H as <-.
    exists v. repeat split; assumption.
  - invert_bind H. destruct v; [discriminate H |].
    invert_bind H. destruct v; [discriminate H |].
    invert_bind H. destruct v; discriminate H.
Qed.

(** *** The decision order *)

Lemma status_code_is_spec (data : value) (code : Z) :
  status_code_is data code =
  Ok (match status_code data with
      | Some c => eqb c (of_Z code)
      | None => false
      end).
Proof.
  unfold status_code_is, status_code.
  destruct data as [| | b | n | s | elems | props]; try reflexivity.
  - destruct b; reflexivity.
  - destruct n; reflexivity.
  - destruct s; reflexivity.
  - cbn. destruct (lookup "status" props) as [| | b | n | s | elems | status];
      try reflexivity.
    + destruct b; reflexivity.
    + destruct n; reflexivity.
    + destruct s; reflexivity.
    + cbn. destruct (lookup "code" status); reflexivity.
Qed.

Lemma eqb_finite (c : number) (s : bool) (m : positive) (e : Z) :
  eqb c (S754_finite s m e) = true -> c = S754_finite s m e.
Proof.
  unfold eqb, SFeqb.
  destruct c as [s' | s' | | s' m' e']; try discriminate;
    try (destruct s', s; discriminate).
  cbn. rewrite Pos.compare_cont_spec. cbn.
  destruct s', s; try discriminate;
    destruct (Z.compare_spec e' e) as [-> | |]; try discriminate;
    destruct (Pos.compare_spec m' m) as [-> | |]; try discriminate;
    reflexivity.
Qed.

(** From [c === code] to [c = code], for a non-zero literal [code]. *)
Ltac code_is E :=
  match type of E with
  | eqb ?c (of_Z ?z) = true =>
      let v := eval vm_compute in (of_Z z) in
      change (of_Z z) with v in E; apply eqb_finite in E; subst c
  end.

Ltac branch_of data Hc :=
  unfold parseACRCloudResponse, identified;
  rewrite ?(status_code_is_spec data), ?Hc; cbn.

(** The decision order of [parseACRCloudResponse], on every reply: the
    codes 1001, 3001 and 3003 give their failure whatever else the reply
    holds; a reply without a numeric [status.code], one with another code
    than 0, 1001, 3001 and 3003, and one with code 0 and an empty music
    list are returned unchanged as unknown. *)
Theorem decision_order (data : value) :
  (forall c, status_code data = Some c -> eqb c (of_Z 1001) = true ->
     parseACRCloudResponse data = Ok (failure "No music found in database" 1001)) /\
  (forall c, status_code data = Some c -> eqb c (of_Z 3001) = true ->
     parseACRCloudResponse data = Ok (failure "Invalid access key" 3001)) /\
  (forall c, status_code data = Some c -> eqb c (of_Z 3003) = true ->
     parseACRCloudResponse data = Ok (failure "Rate limit exceeded" 3003)) /\
  (forall c, status_code data = Some c ->
     eqb c (of_Z 0) = false -> eqb c (of_Z 1001) = false ->
     eqb c (of_Z 3001) = false -> eqb c (of_Z 3003) = false ->
     parseACRCloudResponse data = Ok (unknown data)) /\
  (status_code data = None ->
     parseACRCloudResponse data = Ok (unknown data)) /\
  (forall c, status_code data = Some c -> eqb c (of_Z 0) = true ->
     music_of data = VArr [] ->
     parseACRCloudResponse data = Ok (unknown data)).
Proof.
  repeat split.
  - intros c Hc E. code_is E. branch_of data Hc. reflexivity.
  - intros c Hc E. code_is E. branch_of data Hc. reflexivity.
  - intros c Hc E. code_is E. branch_of data Hc. reflexivity.
  - intros c Hc E0 E1 E2 E3. branch_of data Hc.
    cbn in E0, E1, E2, E3. rewrite E0. cbn. rewrite E1, E2, E3. reflexivity.
  - intros Hc. branch_of data Hc. reflexivity.
  - intros c Hc E M.
    assert (Z : exists s, c = S754_zero s).
    { destruct c as [s | [|] | | [|] ? ?]; try discriminate E. now exists s. }
    destruct Z as [s ->].
    destruct data as [| | | | | | props]; try discriminate Hc.
    unfold music_of in M.
    destruct (lookup "metadata" props) as [| | | | | | metadata] eqn:L;
      try discriminate M.
    branch_of (VObj props) Hc. rewrite L. cbn. rewrite M. reflexivity.
Qed.

(** A reply with code 0 and a music list that is not empty takes the first
    branch: its outcome is the success built from the first element of the
    list, or what building that record throws. *)
Theorem first_match_decides (data m : value) (rest : list value) (c : number) :
  status_code data = Some c ->
  eqb c (of_Z 0) = true ->
  music_of data = VArr (m :: rest) ->
  identified data = Ok true /\
  first_match data = Ok m /\
  parseACRCloudResponse data = (s <- song m ;; Ok (success s)).
Proof.
  intros Hc E M.
  destruct data as [| | | | | | props]; try discriminate Hc.
  unfold music_of in M.
  destruct (lookup "metadata" props) as [| | | | | | metadata] eqn:L;
    try discriminate M.
  assert (I : identified (VObj props) = Ok true).
  { unfold identified. rewrite status_code_is_spec, Hc, E.
    cbn [and_then bind test get path]. rewrite L.
    cbn [bind truthy get]. rewrite M. cbn [bind truthy].
    apply length_is_positive. }
  assert (F : first_match (VObj props) = Ok m).
  { unfold first_match. cbn [path get bind]. rewrite L.
    cbn [bind get]. rewrite M. reflexivity. }
  repeat split; try assumption.
  unfold parseACRCloudResponse. rewrite I. cbn [bind]. rewrite F. reflexivity.
Qed.

Lemma first_match_decides_witness :
  identified (reply 0 (VArr [song_a])) = Ok true /\
  first_match (reply 0 (VArr [song_a])) = Ok song_a /\
  parseACRCloudResponse (reply 0 (VArr [song_a])) =
    (s <- song song_a ;; Ok (success s)).
Proof.
  apply (first_match_decides (reply 0 (VArr [song_a])) song_a [] (of_Z 0));
    reflexivity.
Defined.

(** *** Matches that are not objects *)

(** C1 at the reply [{"status": {"code": 0}, "metadata": {"music":
    [null]}}]: the code is 0 and the list is not empty, so the first branch
    is taken, and reading [music.title] throws; no outcome is returned. *)
Theorem null_match_has_no_outcome :
  identified (reply 0 (VArr [VNull])) = Ok true /\
  parseACRCloudResponse (reply 0 (VArr [VNull])) =
    Throw (TypeError "Cannot read properties of null (reading 'title')").
Proof. split; vm_compute; reflexivity. Qed.

(** C4 at replies whose first match is [null], or has [null] for its first
    artist, or a number for its release date: [parseACRCloudResponse]
    throws. *)
Theorem null_entries_raise :
  parseACRCloudResponse (reply 0 (VArr [VNull])) =
    Throw (TypeError "Cannot read properties of null (reading 'title')") /\
  parseACRCloudResponse (reply 0 (VArr [VObj [("artists", VArr [VNull])]])) =
    Throw (TypeError "Cannot read properties of null (reading 'name')") /\
  parseACRCloudResponse (reply 0 (VArr [VObj [("release_date", num 2020)]])) =
    Throw (TypeError "music.release_date.substring is not a function").
Proof. repeat split; vm_compute; reflexivity. Qed.

(** *** The fields of a success *)

(** The example of the specification: code 0, one match with title
    [Song A], artist [Artist A] and score 0.97. *)
Theorem song_a_is_identified :
  parseACRCloudResponse (reply 0 (VArr [song_a])) = Ok (success song_a_record) /\
  get song_a_record "title" = Ok (VStr "Song A") /\
  get song_a_record "artist" = Ok (VStr "Artist A") /\
  get song_a_record "confidence" = Ok (num 97).
Proof. repeat split; vm_compute; reflexivity. Qed.

Lemma artist_of_list (music first : value) (others : list value) :
  get music "artists" = Ok (VArr (first :: others)) ->
  artist music = get first "name".
Proof.
  intros E. unfold artist. cbn [path]. rewrite E. cbn [test bind truthy and_then].
  match goal with
  | |- bind ?t _ = _ =>
      replace t with (@Ok bool true)
        by (symmetry; exact (length_is_positive first others))
  end.
  reflexivity.
Qed.

(** In every success: the title is the match's, or [Unknown Title] when
    absent; the artist is the name of the first artist, or [Unknown Artist]
    when [artists] is absent or empty; the album is the album's name, or
    [Unknown Album] when [album] is absent; the year is the first four
    characters of [release_date], or [Unknown] when absent. *)
Theorem placeholders (data s : value) :
  parseACRCloudResponse data = Ok (success s) ->
  exists music,
    first_match data = Ok music /\
    (get music "title" = Ok VUndefined ->
     get s "title" = Ok (VStr "Unknown Title")) /\
    (forall t, get music "title" = Ok (VStr t) -> t <> "" ->
     get s "title" = Ok (VStr t)) /\
    (get music "artists" = Ok VUndefined \/ get music "artists" = Ok (VArr []) ->
     get s "artist" = Ok (VStr "Unknown Artist")) /\
    (forall first others, get music "artists" = Ok (VArr (VObj first :: others)) ->
     get s "artist" = Ok (lookup "name" first)) /\
    (get music "album" = Ok VUndefined ->
     get s "album" = Ok (VStr "Unknown Album")) /\
    (forall props, get music "album" = Ok (VObj props) ->
     get s "album" = Ok (lookup "name" props)) /\
    (get music "release_date" = Ok VUndefined ->
     get s "year" = Ok (VStr "Unknown")) /\
    (forall d, get music "release_date" = Ok (VStr d) -> d <> "" ->
     get s "year" = Ok (VStr (substring 0 4 d))).
Proof.
  intros H.
  destruct (success_inv data s H) as (music & _ & Hm & Hs).
  destruct (song_Ok music s Hs)
    as (t & a & al & y & c & d & sp & yt & ap & ca & pr & Ht & Ha & Hal & Hy & _ & _ & _ & _ & _ & _ & _ & ->).
  assert (T : forall x, x <> "" -> truthy (VStr x) = true).
  { intros x Hx. cbn. destruct (String.eqb_spec x ""); [contradiction | reflexivity]. }
  exists music. split; [exact Hm |]. cbn [get lookup String.eqb Ascii.eqb Bool.eqb].
  unfold title in Ht. unfold album in Hal. unfold year in Hy.
  repeat split.
  - intros E. rewrite E in Ht. cbn in Ht. congruence.
  - intros x E Hx. rewrite E in Ht. cbn [bind] in Ht.
    unfold or_else in Ht. rewrite (T x Hx) in Ht. congruence.
  - intros [E | E]; unfold artist in Ha; cbn [path] in Ha; rewrite E in Ha;
      vm_compute in Ha; congruence.
  - intros first others E. rewrite (artist_of_list _ _ _ E) in Ha.
    cbn in Ha. congruence.
  - intros E. rewrite E in Hal. cbn in Hal. congruence.
  - intros props E. cbn [path] in Hal. rewrite E in Hal. cbn in Hal. congruence.
  - intros E. rewrite E in Hy. cbn in Hy. congruence.
  - intros x E Hx. rewrite E in Hy. cbn [test bind] in Hy.
    rewrite (T x Hx) in Hy. cbn in Hy. congruence.
Qed.

Lemma placeholders_witness :
  exists music,
    first_match (reply 0 (VArr [song_a])) = Ok music /\
    (get music "title" = Ok VUndefined ->
     get song_a_record "title" = Ok (VStr "Unknown Title")) /\
    (forall t, get music "title" = Ok (VStr t) -> t <> "" ->
     get song_a_record "title" = Ok (VStr t)) /\
    (get music "artists" = Ok VUndefined \/ get music "artists" = Ok (VArr []) ->
     get song_a_record "artist" = Ok (VStr "Unknown Artist")) /\
    (forall first others, get music "artists" = Ok (VArr (VObj first :: others)) ->
     get song_a_record "artist" = Ok (lookup "name" first)) /\
    (get music "album" = Ok VUndefined ->
     get song_a_record "album" = Ok (VStr "Unknown Album")) /\
    (forall props, get music "album" = Ok (VObj props) ->
     get song_a_record "album" = Ok (lookup "name" props)) /\
    (get music "release_date" = Ok VUndefined ->
     get song_a_record "year" = Ok (VStr "Unknown")) /\
    (forall d, get music "release_date" = Ok (VStr d) -> d <> "" ->
     get song_a_record "year" = Ok (VStr (substring 0 4 d))).
Proof.
  apply (placeholders (reply 0 (VArr [song_a]))).
  vm_compute. reflexivity.
Defined.

(** C6 at a match whose first artist has no name, and at one whose album
    has no name: the reply is a success whose [artist], or [album], is
    [undefined], not the placeholder. *)
Theorem nameless_artist_is_undefined :
  (out <- parseACRCloudResponse (reply 0 (VArr [VObj [("artists", VArr [VObj []])]])) ;;
   path out ["song"; "artist"]) = Ok VUndefined /\
  (out <- parseACRCloudResponse (reply 0 (VArr [VObj [("album", VObj [])]])) ;;
   path out ["song"; "album"]) = Ok VUndefined.
Proof. split; vm_compute; reflexivity. Qed.


Lemma round_is_nearest_integer (x : number) : round x = nearest_integer x.
Proof.
  destruct x as [| | | s m e]; try reflexivity.
  unfold round, nearest_integer.
  destruct (Z.leb_spec 0 e), (Z.ltb_spec e 0); try lia; try reflexivity.
  rewrite Z.shiftr_div_pow2 by lia. reflexivity.
Qed.

(** C5, as stated, fails on scores that are no numbers but convert to one:
    [true] gives 100, the string ["0.97"] gives 97 and the list [[0.5]]
    gives 50, none of them 95. *)
Lemma non_numeric_scores_are_converted :
  confidence_of (VBool true) = Ok (num 100) /\
  confidence_of (VStr "0.97") = Ok (num 97) /\
  confidence_of (VArr [VNum (of_string "0.5")]) = Ok (num 50).
Proof. repeat split; vm_compute; reflexivity. Qed.

(** C5, amended: in every success the confidence is the integer nearest to
    [n * 100], ties upwards, where [n] is the score converted to a Number
    as [*] converts it: a Number is itself, [true] is 1, [false] and [null]
    are 0, a String is the number it spells or [NaN], and an absent score
    is [NaN].  When that integer is [NaN] or zero the confidence is 95: so
    it is when the score is absent, when it converts to [NaN], when it is
    [null] or [false], and when the product rounds to zero. *)
Theorem confidence_is_rounded_score_or_95 (data s : value) :
  parseACRCloudResponse data = Ok (success s) ->
  exists music score n,
    first_match data = Ok music /\
    get music "score" = Ok score /\
    ToNumber score = Ok n /\
    get s "confidence" =
      Ok (VNum (if is_nan (nearest_integer (mul n (of_Z 100)))
                   || is_zero (nearest_integer (mul n (of_Z 100)))
                then of_Z 95
                else nearest_integer (mul n (of_Z 100)))) /\
    (forall x, score = VNum x -> n = x) /\
    (forall text, score = VStr text -> n = of_string text) /\
    (score = VBool true -> get s "confidence" = Ok (num 100)) /\
    (score = VUndefined \/ score = VNull \/ score = VBool false ->
     get s "confidence" = Ok (num 95)) /\
    (is_nan n = true -> get s "confidence" = Ok (num 95)).
Proof.
  intros H.
  destruct (success_inv data s H) as (music & _ & Hm & Hs).
  destruct (song_Ok music s Hs)
    as (t & a & al & y & c & d & sp & yt & ap & ca & pr & _ & _ & _ & _ & Hc & _ & _ & _ & _ & _ & _ & ->).
  unfold confidence, times in Hc.
  remember (of_Z 100) as hundred eqn:Hh.
  invert_bind Hc. rename v into score.
  invert_bind Hc. invert_bind E0. rename v0 into n.
  injection E0 as <-.
  assert (R : c = VNum (if is_nan (nearest_integer (mul n hundred))
                           || is_zero (nearest_integer (mul n hundred))
                        then of_Z 95
                        else nearest_integer (mul n hundred))).
  { rewrite <- round_is_nearest_integer.
    unfold or_else, truthy in Hc. revert Hc.
    destruct (round (mul n hundred)); simpl; intros Hc;
      injection Hc as <-; reflexivity. }
  exists music, score, n.
  split; [exact Hm |]. split; [exact E |]. split; [exact E1 |].
  cbn [get lookup String.eqb Ascii.eqb Bool.eqb]. rewrite R.
  split; [reflexivity |].
  split; [intros x ->; cbn in E1; congruence |].
  split; [intros text ->; cbn in E1; congruence |].
  split; [| split].
  - intros ->. injection E1 as <-. subst hundred. vm_compute. reflexivity.
  - intros [-> | [-> | ->]]; injection E1 as <-; subst hundred;
      vm_compute; reflexivity.
  - intros N. destruct n; try discriminate N. reflexivity.
Qed.

Lemma confidence_is_rounded_score_or_95_witness :
  exists music score n,
    first_match (scored (VNum (of_string "0.285"))) = Ok music /\
    get music "score" = Ok score /\
    ToNumber score = Ok n /\
    get (unnamed (num 28)) "confidence" =
      Ok (VNum (if is_nan (nearest_integer (mul n (of_Z 100)))
                   || is_zero (nearest_integer (mul n (of_Z 100)))
                then of_Z 95
                else nearest_integer (mul n (of_Z 100)))) /\
    (forall x, score = VNum x -> n = x) /\
    (forall text, score = VStr text -> n = of_string text) /\
    (score = VBool true -> get (unnamed (num 28)) "confidence" = Ok (num 100)) /\
    (score = VUndefined \/ score = VNull \/ score = VBool false ->
     get (unnamed (num 28)) "confidence" = Ok (num 95)) /\
    (is_nan n = true -> get (unnamed (num 28)) "confidence" = Ok (num 95)).
Proof.
  apply (confidence_is_rounded_score_or_95 (scored (VNum (of_string "0.285")))).
  vm_compute. reflexivity.
Defined.

(** C7, as stated, fails on a match whose [duration_ms] is 0: the field is
    present and [floor (0 / 1000)] is 0, yet the duration is [null]. *)
Lemma zero_duration_is_null :
  get instant "duration_ms" = Ok (num 0) /\
  floor (div (of_Z 0) (of_Z 1000)) = of_Z 0 /\
  (out <- parseACRCloudResponse (reply 0 (VArr [instant])) ;;
   path out ["song"; "duration"]) = Ok VNull.
Proof. repeat split; vm_compute; reflexivity. Qed.

(** C7, amended: in every success the duration is
    [Math.floor(duration_ms / 1000)], [duration_ms] converted to a Number,
    whenever [duration_ms] is truthy, and [null] when it is absent or
    falsy. *)
Theorem duration_is_floored_when_truthy (data s : value) :
  parseACRCloudResponse data = Ok (success s) ->
  exists music d,
    first_match data = Ok music /\
    get music "duration_ms" = Ok d /\
    (truthy d = true ->
     exists x, ToNumber d = Ok x /\
               get s "duration" = Ok (VNum (floor (div x (of_Z 1000))))) /\
    (truthy d = false -> get s "duration" = Ok VNull) /\
    (d = VUndefined -> get s "duration" = Ok VNull).
Proof.
  intros H.
  destruct (success_inv data s H) as (music & _ & Hm & Hs).
  destruct (song_Ok music s Hs)
    as (t & a & al & y & c & dn & sp & yt & ap & ca & pr & _ & _ & _ & _ & _ & Hd & _ & _ & _ & _ & _ & ->).
  unfold duration, test, divided_by in Hd.
  remember (of_Z 1000) as thousand eqn:Ht.
  invert_bind Hd. invert_bind E. rename v0 into d.
  injection E as <-.
  exists music, d. split; [exact Hm |]. split; [exact E0 |].
  destruct (truthy d) eqn:T.
  - rewrite E0 in Hd. cbn in Hd.
    invert_bind Hd. invert_bind E. rename v0 into x.
    injection E as <-. injection Hd as <-.
    repeat split.
    + intros _. exists x. split; [exact E1 | reflexivity].
    + intros F. discriminate F.
    + intros ->. discriminate T.
  - injection Hd as <-.
    repeat split; try reflexivity.
    intros F. discriminate F.
Qed.

Lemma duration_is_floored_when_truthy_witness :
  exists music d,
    first_match (reply 0 (VArr [song_b])) = Ok music /\
    get music "duration_ms" = Ok d /\
    (truthy d = true ->
     exists x, ToNumber d = Ok x /\
               get song_b_record "duration" =
                 Ok (VNum (floor (div x (of_Z 1000))))) /\
    (truthy d = false -> get song_b_record "duration" = Ok VNull) /\
    (d = VUndefined -> get song_b_record "duration" = Ok VNull).
Proof.
  apply (duration_is_floored_when_truthy (reply 0 (VArr [song_b]))).
  vm_compute. reflexivity.
Defined.

(** *** External links *)

Lemma path_opt_undefined (keys : list string) :
  path_opt VUndefined keys = Ok VUndefined.
Proof.
  induction keys as [| k rest IH]; [reflexivity | exact IH].
Qed.

Lemma path_opt_absent (keys : list string) :
  forall v x, path_opt v keys = Ok x -> absent v keys = true -> x = VUndefined.
Proof.
  induction keys as [| k rest IH]; intros v x H A.
  - injection H as <-. destruct v; try discriminate A. reflexivity.
  - destruct v; cbn in H, A;
      try (rewrite path_opt_undefined in H; injection H as <-; reflexivity);
      try (destruct (String.eqb k "length"); cbn in H, A);
      eapply IH; eassumption.
Qed.

Lemma get_opt_of_get (v x : value) (key : string) :
  get v key = Ok x -> get_opt v key = Ok x.
Proof.
  destruct v; intros H; try discriminate H; exact H.
Qed.

Lemma path_opt_of_path (keys : list string) :
  forall v x, path v keys = Ok x -> path_opt v keys = Ok x.
Proof.
  induction keys as [| k rest IH]; intros v x H; [exact H |].
  cbn [path] in H. invert_bind H.
  cbn [path_opt]. rewrite (get_opt_of_get _ _ _ E). cbn [bind].
  apply IH. exact H.
Qed.

(** [music.external_metadata?.k1?.k2...] is [undefined] when the path is
    absent from [music]. *)
Lemma external_absent (music x : value) (keys : list string) :
  external music keys = Ok x ->
  absent music ("external_metadata" :: keys) = true ->
  x = VUndefined.
Proof.
  unfold external. intros H A. invert_bind H.
  apply (path_opt_absent keys v x H).
  destruct music; try discriminate E; cbn in E, A;
    injection E as <-; exact A.
Qed.

Lemma external_of_path (music x : value) (keys : list string) :
  path music ("external_metadata" :: keys) = Ok x ->
  external music keys = Ok x.
Proof.
  unfold external. cbn. intros H. invert_bind H. rewrite E. cbn.
  apply path_opt_of_path. exact H.
Qed.

(** C3, as stated, fails on the specification's example match, which has
    no external metadata: the three fields are [undefined], which
    serialisation to JSON omits, and not [null]. *)
Lemma absent_links_are_not_null :
  absent song_a ["external_metadata"; "spotify"; "track"; "external_urls"; "spotify"]
    = true /\
  (out <- parseACRCloudResponse (reply 0 (VArr [song_a])) ;;
   path out ["song"; "spotify_url"]) = Ok VUndefined /\
  (out <- parseACRCloudResponse (reply 0 (VArr [song_a])) ;;
   path out ["song"; "apple_url"]) = Ok VUndefined /\
  (out <- parseACRCloudResponse (reply 0 (VArr [song_a])) ;;
   path out ["song"; "preview_url"]) = Ok VUndefined.
Proof. repeat split; vm_compute; reflexivity. Qed.

(** C3, amended: in every success, [spotify_url], [apple_url] and
    [preview_url] are [undefined] (no error, and not [null]) when their
    path in the external metadata is absent at some link; [youtube_url] is
    [null] when the video id is absent or falsy, and otherwise the text
    [https://www.youtube.com/watch?v=] followed by the text of the id,
    which for a String is the id itself. *)
Theorem absent_links_are_undefined (data s : value) :
  parseACRCloudResponse data = Ok (success s) ->
  exists music vid,
    first_match data = Ok music /\
    (absent music ["external_metadata"; "spotify"; "track"; "external_urls"; "spotify"]
       = true -> get s "spotify_url" = Ok VUndefined) /\
    (absent music ["external_metadata"; "apple_music"; "url"] = true ->
     get s "apple_url" = Ok VUndefined) /\
    (absent music ["external_metadata"; "spotify"; "track"; "preview_url"] = true ->
     get s "preview_url" = Ok VUndefined) /\
    external music ["youtube"; "vid"] = Ok vid /\
    (absent music ["external_metadata"; "youtube"; "vid"] = true ->
     vid = VUndefined) /\
    (truthy vid = false -> get s "youtube_url" = Ok VNull) /\
    (truthy vid = true ->
     exists text,
       ToString vid = Ok text /\
       get s "youtube_url" = Ok (VStr ("https://www.youtube.com/watch?v=" ++ text))) /\
    (forall id, vid = VStr id -> id <> "" ->
     get s "youtube_url" = Ok (VStr ("https://www.youtube.com/watch?v=" ++ id))).
Proof.
  intros H.
  destruct (success_inv data s H) as (music & _ & Hm & Hs).
  destruct (song_Ok music s Hs)
    as (t & a & al & y & c & d & sp & yt & ap & ca & pr & _ & _ & _ & _ & _ & _ & Hsp & Hyt & Hap & _ & Hpr & ->).
  unfold youtube_url, test in Hyt.
  invert_bind Hyt. invert_bind E. rename v0 into vid.
  injection E as <-.
  assert (Y : truthy vid = true ->
              exists text,
                ToString vid = Ok text /\
                yt = VStr ("https://www.youtube.com/watch?v=" ++ text)).
  { intros T. rewrite T in Hyt.
    invert_bind Hyt. invert_bind Hyt.
    apply external_of_path in E. rewrite E0 in E. injection E as <-.
    injection Hyt as <-. exists v0. split; [exact E1 | reflexivity]. }
  exists music, vid. repeat split; try assumption.
  - intros A. cbn. f_equal. exact (external_absent _ _ _ Hsp A).
  - intros A. cbn. f_equal. exact (external_absent _ _ _ Hap A).
  - intros A. cbn. f_equal. exact (external_absent _ _ _ Hpr A).
  - intros A. exact (external_absent _ _ _ E0 A).
  - intros F. rewrite F in Hyt. injection Hyt as <-. reflexivity.
  - intros T. destruct (Y T) as (text & Ht & ->). exists text.
    split; [exact Ht | reflexivity].
  - intros id -> Hid.
    assert (T : truthy (VStr id) = true).
    { cbn. destruct (String.eqb_spec id ""); [contradiction | reflexivity]. }
    destruct (Y T) as (text & Ht & ->). injection Ht as <-. reflexivity.
Qed.

Lemma absent_links_are_undefined_witness :
  exists music vid,
    first_match (reply 0 (VArr [song_b])) = Ok music /\
    (absent music ["external_metadata"; "spotify"; "track"; "external_urls"; "spotify"]
       = true -> get song_b_record "spotify_url" = Ok VUndefined) /\
    (absent music ["external_metadata"; "apple_music"; "url"] = true ->
     get song_b_record "apple_url" = Ok VUndefined) /\
    (absent music ["external_metadata"; "spotify"; "track"; "preview_url"] = true ->
     get song_b_record "preview_url" = Ok VUndefined) /\
    external music ["youtube"; "vid"] = Ok vid /\
    (absent music ["external_metadata"; "youtube"; "vid"] = true ->
     vid = VUndefined) /\
    (truthy vid = false -> get song_b_record "youtube_url" = Ok VNull) /\
    (truthy vid = true ->
     exists text,
       ToString vid = Ok text /\
       get song_b_record "youtube_url" =
         Ok (VStr ("https://www.youtube.com/watch?v=" ++ text))) /\
    (forall id, vid = VStr id -> id <> "" ->
     get song_b_record "youtube_url" =
       Ok (VStr ("https://www.youtube.com/watch?v=" ++ id))).
Proof.
  apply (absent_links_are_undefined (reply 0 (VArr [song_b]))).
  vm_compute. reflexivity.
Defined.

(** *** The shape of an outcome *)



(** *** Runs of the handler *)

Ltac answer w :=
  match goal with
  | |- context [w ?X ?e ?s] =>
      let x := fresh "x" in
      let s' := fresh "s" in
      destruct (w X e s) as [x s']; cbn
  end.

(** A request without a file, or with a credential missing, is answered
    before any effect. *)
Lemma identify_refused (config : Config) (file : option File) :
  file = None \/
  missing (access_key config) || missing (access_secret config) = true ->
  exists reply, identify config file = Ret reply.
Proof.
  intros [-> | H]; unfold identify.
  - eexists. reflexivity.
  - destruct file; [rewrite H |]; eexists; reflexivity.
Qed.

(** Otherwise the clock is read once, one string is signed and one body is
    sent, both made from that reading. *)
Lemma identify_run {S : Type} (w : world S) (s : S) (config : Config) (file : File) :
  missing (access_key config) || missing (access_secret config) = false ->
  exists now signature,
    let timestamp := floor (div now (of_Z 1000)) in
    let calls := fst (run w (identify config (Some file)) s) in
    clock calls = [now] /\
    signed calls =
      [stringToSign (endpoint config) (text (access_key config)) timestamp] /\
    sent calls =
      [formData file (text (access_key config)) signature timestamp].
Proof.
  intros H. unfold identify. rewrite H. cbn.
  answer w. answer w. exists x0.
  answer w. exists x1. answer w. answer w.
  destruct x3 as [response | error]; cbn.
  - destruct (json response) as [data | error]; cbn.
    + answer w. destruct (ok response); cbn.
      * destruct (parseACRCloudResponse data); cbn.
        -- repeat split.
        -- answer w. repeat split.
      * answer w. repeat split.
    + answer w. repeat split.
  - answer w. repeat split.
Qed.

(** *** The canonical string and the timestamp *)

(** C2: the string given to the signer is the method, the path, the key
    id, ["audio"], ["1"] and the timestamp joined by newlines, for every key
    id, path and timestamp; for path [/v1/identify], key id [abc123] and
    timestamp 1700000000 it is the six lines below; and every string the
    handler has signed in a run is of that form. *)
Theorem stringToSign_canonical :
  (forall (endpoint access_key : string) (timestamp : number),
      stringToSign endpoint access_key timestamp =
      String.concat LF
        ["POST"; endpoint; access_key; "audio"; "1"; to_string timestamp]) /\
  stringToSign "/v1/identify" "abc123" (of_Z 1700000000) =
    "POST
/v1/identify
abc123
audio
1
1700000000" /\
  (forall (S : Type) (w : world S) (s : S) (config : Config)
          (file : option File) (data : string),
      In data (signed (fst (run w (identify config file) s))) ->
      exists timestamp,
        data = String.concat LF
                 ["POST"; endpoint config; text (access_key config);
                  "audio"; "1"; to_string timestamp]).
Proof.
  split; [| split].
  - intros. reflexivity.
  - vm_compute. reflexivity.
  - intros S w s config file data H.
    destruct file as [file |];
      [destruct (missing (access_key config) || missing (access_secret config))
         eqn:M |].
    + destruct (identify_refused config (Some file)) as [r E]; [now right |].
      rewrite E in H. contradiction H.
    + destruct (identify_run w s config file M) as (now & sig & _ & Hs & _).
      rewrite Hs in H. destruct H as [<- | []].
      eexists. reflexivity.
    + contradiction H.
Qed.

(** C8: in every run of the handler, a string that was signed and a body
    that was sent come with exactly one reading [now] of the clock: the
    string signed is [POST], the path, the key id, [audio], [1] and the
    decimal text of [floor (now / 1000)], joined by newlines, and the
    [timestamp] field of the body is that same text. *)
Theorem signed_timestamp_is_sent_timestamp
    (S : Type) (w : world S) (s : S) (config : Config) (file : option File)
    (data : string) (form : list part) :
  let calls := fst (run w (identify config file) s) in
  In data (signed calls) ->
  In form (sent calls) ->
  exists now,
    let timestamp := floor (div now (of_Z 1000)) in
    clock calls = [now] /\
    data = String.concat LF
             ["POST"; endpoint config; text (access_key config);
              "audio"; "1"; to_string timestamp] /\
    In (Field "timestamp" (to_string timestamp)) form /\
    field "timestamp" form = Some (to_string timestamp).
Proof.
  intros calls Hd Hf. subst calls.
  destruct file as [file |];
    [destruct (missing (access_key config) || missing (access_secret config))
       eqn:M |].
  - destruct (identify_refused config (Some file)) as [r E]; [now right |].
    rewrite E in Hd. contradiction Hd.
  - destruct (identify_run w s config file M) as (now & sig & Hc & Hs & Hb).
    rewrite Hs in Hd. rewrite Hb in Hf.
    destruct Hd as [<- | []]. destruct Hf as [<- | []].
    exists now. split; [exact Hc |]. split; [reflexivity |].
    split; [| reflexivity].
    unfold formData. do 6 right. left. reflexivity.
  - contradiction Hd.
Qed.

Lemma signed_timestamp_is_sent_timestamp_witness :
  exists now,
    clock (fst (run sample_world
                  (identify (acrcloudConfig (Some "abc123") (Some "s3cret"))
                     (Some sample_file)) (of_Z 1700000000999))) = [now] /\
    "POST
/v1/identify
abc123
audio
1
1700000000" =
      String.concat LF
        ["POST"; "/v1/identify"; "abc123"; "audio"; "1";
         to_string (floor (div now (of_Z 1000)))] /\
    In (Field "timestamp" (to_string (floor (div now (of_Z 1000)))))
      [FilePart "sample" [] "clip.wav" "audio/wav";
       Field "sample_bytes" "4";
       Field "access_key" "abc123";
       Field "data_type" "audio";
       Field "signature_version" "1";
       Field "signature" "c2lnbmF0dXJl";
       Field "timestamp" "1700000000"] /\
    field "timestamp"
      [FilePart "sample" [] "clip.wav" "audio/wav";
       Field "sample_bytes" "4";
       Field "access_key" "abc123";
       Field "data_type" "audio";
       Field "signature_version" "1";
       Field "signature" "c2lnbmF0dXJl";
       Field "timestamp" "1700000000"] =
      Some (to_string (floor (div now (of_Z 1000)))).
Proof.
  apply (signed_timestamp_is_sent_timestamp number sample_world
           (of_Z 1700000000999)
           (acrcloudConfig (Some "abc123") (Some "s3cret")) (Some sample_file)).
  - vm_compute. left. reflexivity.
  - vm_compute. left. reflexivity.
Defined.

(** *** Missing credentials *)

(** C9, as stated, fails on a request that carries no file: with both
    credentials missing it is answered 400 [No audio file provided], which
    is no configuration error. *)
Lemma missing_credentials_without_file :
  missing (access_key (acrcloudConfig None None)) = true /\
  identify (acrcloudConfig None None) None = Ret no_file.
Proof. split; reflexivity. Qed.

(** C9, amended: when the access key or the secret is empty or missing, a
    request that carries a file is answered 500 [ACRCloud API keys not
    configured] and one without a file 400 [No audio file provided]; either
    way the handler returns without any effect, so that in every
    environment nothing is logged, signed or sent. *)
Theorem missing_credentials_stop_the_request (config : Config) (file : option File) :
  missing (access_key config) || missing (access_secret config) = true ->
  identify config file =
    Ret (match file with Some _ => not_configured | None => no_file end) /\
  forall (S : Type) (w : world S) (s : S),
    fst (run w (identify config file) s) = [].
Proof.
  intros H.
  assert (E : identify config file =
              Ret (match file with Some _ => not_configured | None => no_file end)).
  { unfold identify. destruct file; [rewrite H |]; reflexivity. }
  split; [exact E |].
  intros S w s. rewrite E. reflexivity.
Qed.

Lemma missing_credentials_stop_the_request_witness :
  identify (acrcloudConfig (Some "abc123") (Some "")) (Some sample_file) =
    Ret not_configured /\
  forall (S : Type) (w : world S) (s : S),
    fst (run w (identify (acrcloudConfig (Some "abc123") (Some ""))
                  (Some sample_file)) s) = [].
Proof.
  apply (missing_credentials_stop_the_request
           (acrcloudConfig (Some "abc123") (Some "")) (Some sample_file)).
  reflexivity.
Defined.


(** *** Where an exception can come from *)

(** The branches after the first never throw. *)
Lemma later_branches_return (data : value) :
  exists out,
    (c <- status_code_is data 1001 ;;
     if c then Ok (failure "No music found in database" 1001)
     else
     c <- status_code_is data 3001 ;;
     if c then Ok (failure "Invalid access key" 3001)
     else
     c <- status_code_is data 3003 ;;
     if c then Ok (failure "Rate limit exceeded" 3003)
     else Ok (unknown data)) = Ok out.
Proof.
  rewrite !status_code_is_spec. cbn [bind].
  repeat match goal with
         | |- context [if ?b then _ else _] => destruct b; cbn [bind]
         end;
    eexists; reflexivity.
Qed.

Lemma not_identified_returns (data : value) :
  identified data = Ok false ->
  exists out, parseACRCloudResponse data = Ok out.
Proof.
  intros H. unfold parseACRCloudResponse. rewrite H. cbn [bind].
  apply later_branches_return.
Qed.

(** [parseACRCloudResponse] throws only on a reply whose [status.code] is
    the Number 0 and whose [metadata.music] is truthy: every other reply
    gets an outcome. *)
Theorem raising_is_confined (data : value) (e : exn) :
  parseACRCloudResponse data = Throw e ->
  exists c,
    status_code data = Some c /\
    eqb c (of_Z 0) = true /\
    truthy (music_of data) = true.
Proof.
  intros H.
  assert (N : identified data <> Ok false).
  { intros I. destruct (not_identified_returns data I) as [out O]. congruence. }
  unfold identified in N. rewrite status_code_is_spec in N.
  destruct (status_code data) as [c |] eqn:Hc; [| now elim N].
  destruct (eqb c (of_Z 0)) eqn:E0; [| now elim N].
  exists c. split; [reflexivity |]. split; [exact E0 |].
  destruct data as [| | | | | | props]; try discriminate Hc.
  unfold music_of.
  cbn [and_then bind test get path] in N.
  destruct (lookup "metadata" props) as [| | [|] | n | s | elems | metadata];
    try (now elim N); try (destruct n; now elim N);
    try (destruct s; now elim N).
  cbn [and_then bind test truthy get] in N.
  destruct (truthy (lookup "music" metadata)); [reflexivity | now elim N].
Qed.

Lemma raising_is_confined_witness :
  exists c,
    status_code (reply 0 (VArr [VNull])) = Some c /\
    eqb c (of_Z 0) = true /\
    truthy (music_of (reply 0 (VArr [VNull]))) = true.
Proof.
  apply (raising_is_confined (reply 0 (VArr [VNull]))
           (TypeError "Cannot read properties of null (reading 'title')")).
  vm_compute. reflexivity.
Defined.

(** *** Matches that are well formed *)

Lemma get_opt_total (v : value) (key : string) :
  exists x, get_opt v key = Ok x.
Proof.
  destruct v; cbn; try (eexists; reflexivity);
    destruct (String.eqb key "length"); eexists; reflexivity.
Qed.

Lemma path_opt_total (keys : list string) :
  forall v, exists x, path_opt v keys = Ok x.
Proof.
  induction keys as [| k rest IH]; intros v; cbn [path_opt].
  - exists v. reflexivity.
  - destruct (get_opt_total v k) as [x ->]. cbn [bind]. apply IH.
Qed.

(** A truthy end of an optional chain is also the end of the plain chain. *)
Lemma path_of_truthy (keys : list string) :
  forall v x, path_opt v keys = Ok x -> truthy x = true -> path v keys = Ok x.
Proof.
  induction keys as [| k rest IH]; intros v x H T; [exact H |].
  cbn [path_opt] in H. cbn [path].
  destruct v;
    try (cbn [get_opt bind] in H; rewrite path_opt_undefined in H;
         injection H as <-; discriminate T);
    cbn [get_opt] in H; invert_bind H; rewrite E; cbn [bind];
    apply IH; assumption.
Qed.

Lemma ToString_primitive (v : value) :
  primitive v = true -> exists s, ToString v = Ok s.
Proof.
  destruct v; intros P; try discriminate P; eexists; reflexivity.
Qed.

Lemma ToNumber_primitive (v : value) :
  primitive v = true -> exists x, ToNumber v = Ok x.
Proof.
  destruct v; intros P; try discriminate P; eexists; reflexivity.
Qed.

Lemma or_else_total (a : value) (b : result value) :
  (exists y, b = Ok y) -> exists x, or_else a b = Ok x.
Proof.
  intros [y ->]. unfold or_else. destruct (truthy a); eexists; reflexivity.
Qed.

Lemma get_of_truthy (v : value) (key : string) :
  truthy v = true -> exists x, get v key = Ok x.
Proof.
  destruct v; intros T; try discriminate T; cbn;
    try (eexists; reflexivity);
    destruct (String.eqb key "length"); eexists; reflexivity.
Qed.

(** Building the song record of a well-formed match does not throw. *)
Lemma song_total (music : value) :
  well_formed music = true -> exists s, song music = Ok s.
Proof.
  destruct music as [| | | | | | props]; try discriminate.
  unfold well_formed. rewrite !andb_true_iff.
  intros ((((Wa & Wy) & Ws) & Wd) & Wv).
  assert (Ht : exists x, title (VObj props) = Ok x).
  { unfold title. cbn [get bind]. apply or_else_total. eexists; reflexivity. }
  assert (Ha : exists x, artist (VObj props) = Ok x).
  { destruct (lookup "artists" props) as [| | | | | [| [| | | | | | first] others] |] eqn:L;
      try discriminate Wa.
    - unfold artist. cbn [path get bind test and_then]. rewrite L.
      eexists; reflexivity.
    - unfold artist. cbn [path get bind test and_then]. rewrite L.
      eexists; reflexivity.
    - unfold artist. cbn [path get bind test and_then]. rewrite L.
      vm_compute. eexists; reflexivity.
    - rewrite (artist_of_list (VObj props) (VObj first) others)
        by (cbn [get]; rewrite L; reflexivity).
      eexists; reflexivity. }
  assert (Hal : exists x, album (VObj props) = Ok x).
  { unfold album, test. cbn [path get bind].
    destruct (truthy (lookup "album" props)) eqn:T; [| eexists; reflexivity].
    destruct (get_of_truthy _ "name" T) as [x ->]. eexists; reflexivity. }
  assert (Hy : exists x, year (VObj props) = Ok x).
  { unfold year, test. cbn [get bind].
    destruct (lookup "release_date" props) as [| | | | d | |];
      try discriminate Wy; try (eexists; reflexivity).
    destruct d; eexists; reflexivity. }
  assert (Hc : exists x, confidence (VObj props) = Ok x).
  { unfold confidence, times. cbn [get bind].
    destruct (ToNumber_primitive _ Ws) as [x ->]. cbn [bind].
    apply or_else_total. eexists; reflexivity. }
  assert (Hd : exists x, duration (VObj props) = Ok x).
  { unfold duration, test, divided_by. cbn [get bind].
    destruct (truthy (lookup "duration_ms" props)); [| eexists; reflexivity].
    destruct (ToNumber_primitive _ Wd) as [x ->]. eexists; reflexivity. }
  assert (He : forall keys, exists x, external (VObj props) keys = Ok x).
  { intros keys. unfold external. cbn [get bind]. apply path_opt_total. }
  assert (Hyt : exists x, youtube_url (VObj props) = Ok x).
  { unfold youtube_url, test.
    destruct (He ["youtube"; "vid"]) as [vid Ev]. rewrite Ev. cbn [bind].
    destruct (truthy vid) eqn:T; [| eexists; reflexivity].
    unfold external in Ev. cbn [get bind] in Ev.
    rewrite Ev in Wv.
    change (path (VObj props) ["external_metadata"; "youtube"; "vid"])
      with (path (lookup "external_metadata" props) ["youtube"; "vid"]).
    rewrite (path_of_truthy _ _ _ Ev T). cbn [bind].
    destruct (ToString_primitive _ Wv) as [t ->]. eexists; reflexivity. }
  assert (Hca : exists x, cover_art (VObj props) = Ok x).
  { unfold cover_art. cbn [get bind].
    destruct (get_opt_total (lookup "album" props) "artwork_url_500") as [a ->].
    cbn [bind]. apply or_else_total. apply get_opt_total. }
  unfold song.
  destruct Ht as [? ->], Ha as [? ->], Hal as [? ->], Hy as [? ->],
    Hc as [? ->], Hd as [? ->], Hyt as [? ->], Hca as [? ->].
  unfold spotify_url, apple_url, preview_url.
  destruct (He ["spotify"; "track"; "external_urls"; "spotify"]) as [? ->].
  destruct (He ["apple_music"; "url"]) as [? ->].
  destruct (He ["spotify"; "track"; "preview_url"]) as [? ->].
  eexists. reflexivity.
Qed.

Lemma first_element_is_parsed (data m : value) (rest : list value) (c : number) :
  status_code data = Some c ->
  eqb c (of_Z 0) = true ->
  music_of data = VArr (m :: rest) ->
  parseACRCloudResponse data = (s <- song m ;; Ok (success s)).
Proof.
  intros Hc E M.
  destruct data as [| | | | | | props]; try discriminate Hc.
  unfold music_of in M.
  destruct (lookup "metadata" props) as [| | | | | | metadata] eqn:L;
    try discriminate M.
  unfold parseACRCloudResponse, identified, first_match.
  rewrite status_code_is_spec, Hc, E.
  cbn [and_then bind test get path]. rewrite L.
  cbn [bind truthy get]. rewrite M. cbn [bind truthy].
  match goal with
  | |- bind ?t _ = _ =>
      replace t with (@Ok bool true)
        by (symmetry; exact (length_is_positive m rest))
  end.
  reflexivity.
Qed.

(** A reply with code 0 and a music list that starts with a well-formed
    match is a success: its record is the one built from that match. *)
Theorem well_formed_match_is_success
    (data m : value) (rest : list value) (c : number) :
  status_code data = Some c ->
  eqb c (of_Z 0) = true ->
  music_of data = VArr (m :: rest) ->
  well_formed m = true ->
  exists s, song m = Ok s /\ parseACRCloudResponse data = Ok (success s).
Proof.
  intros Hc E M W.
  pose proof (first_element_is_parsed data m rest c Hc E M) as P.
  destruct (song_total m W) as [s Hs].
  exists s. split; [exact Hs |]. rewrite P, Hs. reflexivity.
Qed.

Lemma well_formed_match_is_success_witness :
  exists s,
    song song_b = Ok s /\
    parseACRCloudResponse (reply 0 (VArr [song_b; VNull])) = Ok (success s).
Proof.
  apply (well_formed_match_is_success
           (reply 0 (VArr [song_b; VNull])) song_b [VNull] (of_Z 0));
    reflexivity.
Defined.

(** *** What a success guarantees *)

Lemma prefix_substring (n : nat) :
  forall d, prefix (substring 0 n d) d = true.
Proof.
  induction n as [| n IH]; intros d.
  - destruct d; reflexivity.
  - destruct d as [| c d]; [reflexivity |]. cbn.
    destruct (ascii_dec c c) as [_ | N]; [apply IH | now elim N].
Qed.

Lemma length_substring (n : nat) :
  forall d, String.length (substring 0 n d) = Nat.min n (String.length d).
Proof.
  induction n as [| n IH]; intros d.
  - destruct d; reflexivity.
  - destruct d as [| c d]; [reflexivity |]. cbn. f_equal. apply IH.
Qed.

(** In every success the title is truthy; the year is a String, either
    [Unknown] or the prefix of the match's release date of at most four
    characters; the confidence is a Number that is neither [NaN] nor zero;
    the duration is [null] or a Number; and the video link is [null] or a
    String that starts with the address of the video page. *)
Theorem song_fields_are_usable (data s : value) :
  parseACRCloudResponse data = Ok (success s) ->
  exists music,
    first_match data = Ok music /\
    (exists t, get s "title" = Ok t /\ truthy t = true) /\
    (exists y,
        get s "year" = Ok (VStr y) /\
        (y = "Unknown" \/
         exists d, get music "release_date" = Ok (VStr d) /\
                   prefix y d = true /\
                   String.length y = Nat.min 4 (String.length d))) /\
    (exists c, get s "confidence" = Ok (VNum c) /\
               is_nan c = false /\ is_zero c = false) /\
    (get s "duration" = Ok VNull \/ exists n, get s "duration" = Ok (VNum n)) /\
    (get s "youtube_url" = Ok VNull \/
     exists id,
       get s "youtube_url" = Ok (VStr ("https://www.youtube.com/watch?v=" ++ id))).
Proof.
  intros H.
  destruct (success_inv data s H) as (music & _ & Hm & Hs).
  destruct (song_Ok music s Hs)
    as (t & a & al & y & c & d & sp & yt & ap & ca & pr & Ht & _ & _ & Hy & Hc & Hd & _ & Hyt & _ & _ & _ & ->).
  exists music. split; [exact Hm |].
  cbn [get lookup String.eqb Ascii.eqb Bool.eqb].
  split; [| split; [| split; [| split]]].
  - exists t. split; [reflexivity |].
    unfold title in Ht. invert_bind Ht. unfold or_else in Ht.
    destruct (truthy v) eqn:T; injection Ht as <-; [exact T | reflexivity].
  - unfold year, test in Hy. invert_bind Hy. invert_bind E.
    injection E as <-. rewrite E0 in Hy. cbn [bind] in Hy.
    destruct (truthy v0) eqn:T.
    + destruct v0 as [| | | | r | |]; try discriminate Hy.
      cbn in Hy. injection Hy as <-.
      exists (substring 0 4 r). split; [reflexivity |]. right.
      exists r. split; [exact E0 |].
      split; [apply prefix_substring | apply length_substring].
    + injection Hy as <-. exists "Unknown". split; [reflexivity | now left].
  - unfold confidence, times in Hc.
    remember (of_Z 100) as hundred eqn:Hh.
    do 2 invert_bind Hc. invert_bind E0.
    injection E0 as <-. unfold or_else, truthy in Hc. revert Hc.
    destruct (round (mul v1 hundred)) eqn:R; cbn; intros Hc;
      injection Hc as <-; eexists; split; try reflexivity; split; reflexivity.
  - unfold duration, test, divided_by in Hd. invert_bind Hd. invert_bind E.
    injection E as <-. destruct (truthy v0).
    + do 2 invert_bind Hd. injection Hd as <-. right. eexists; reflexivity.
    + injection Hd as <-. now left.
  - unfold youtube_url in Hyt. invert_bind Hyt. destruct v.
    + do 2 invert_bind Hyt. injection Hyt as <-. right. eexists; reflexivity.
    + injection Hyt as <-. now left.
Qed.

Lemma song_fields_are_usable_witness :
  exists music,
    first_match (reply 0 (VArr [song_b])) = Ok music /\
    (exists t, get song_b_record "title" = Ok t /\ truthy t = true) /\
    (exists y,
        get song_b_record "year" = Ok (VStr y) /\
        (y = "Unknown" \/
         exists d, get music "release_date" = Ok (VStr d) /\
                   prefix y d = true /\
                   String.length y = Nat.min 4 (String.length d))) /\
    (exists c, get song_b_record "confidence" = Ok (VNum c) /\
               is_nan c = false /\ is_zero c = false) /\
    (get song_b_record "duration" = Ok VNull \/
     exists n, get song_b_record "duration" = Ok (VNum n)) /\
    (get song_b_record "youtube_url" = Ok VNull \/
     exists id,
       get song_b_record "youtube_url" =
         Ok (VStr ("https://www.youtube.com/watch?v=" ++ id))).
Proof.
  apply (song_fields_are_usable (reply 0 (VArr [song_b]))).
  vm_compute. reflexivity.
Defined.

(** In every success the cover is the album's [artwork_url_500] when that
    is truthy and its [artwork_url] otherwise; it is [undefined] when the
    match has no album. *)
Theorem cover_art_prefers_the_large_artwork (data s : value) :
  parseACRCloudResponse data = Ok (success s) ->
  exists music album,
    first_match data = Ok music /\
    get music "album" = Ok album /\
    (album = VUndefined \/ album = VNull -> get s "cover_art" = Ok VUndefined) /\
    (forall props, album = VObj props ->
       get s "cover_art" =
         Ok (if truthy (lookup "artwork_url_500" props)
             then lookup "artwork_url_500" props
             else lookup "artwork_url" props)).
Proof.
  intros H.
  destruct (success_inv data s H) as (music & _ & Hm & Hs).
  destruct (song_Ok music s Hs)
    as (t & a & al & y & c & d & sp & yt & ap & ca & pr & _ & _ & _ & _ & _ & _ & _ & _ & _ & Hca & _ & ->).
  unfold cover_art in Hca. invert_bind Hca. invert_bind E. rename v0 into album.
  exists music, album. split; [exact Hm |]. split; [exact E0 |].
  cbn [get lookup String.eqb Ascii.eqb Bool.eqb]. rewrite E0 in Hca. cbn [bind] in Hca.
  split.
  - intros [-> | ->]; cbn in E, Hca; injection E as <-; cbn in Hca; congruence.
  - intros props ->. cbn in E, Hca. injection E as <-.
    unfold or_else in Hca.
    destruct (truthy (lookup "artwork_url_500" props)); congruence.
Qed.

Lemma cover_art_prefers_the_large_artwork_witness :
  exists music album,
    first_match (reply 0 (VArr [song_b])) = Ok music /\
    get music "album" = Ok album /\
    (album = VUndefined \/ album = VNull ->
     get song_b_record "cover_art" = Ok VUndefined) /\
    (forall props, album = VObj props ->
       get song_b_record "cover_art" =
         Ok (if truthy (lookup "artwork_url_500" props)
             then lookup "artwork_url_500" props
             else lookup "artwork_url" props)).
Proof.
  apply (cover_art_prefers_the_large_artwork (reply 0 (VArr [song_b]))).
  vm_compute. reflexivity.
Defined.

(** *** The request sent and the answer given *)

Lemma missing_false (v : env_value) :
  missing v = false -> exists k, v = Some k /\ k <> "" /\ text v = k.
Proof.
  destruct v as [k |]; cbn; intros M; [| discriminate M].
  exists k. repeat split. intros ->. discriminate M.
Qed.

(** A request with a file and both credentials: what is signed, what is
    sent, and what is answered and logged for each answer of the
    provider. *)
Lemma identify_forwarded {S : Type} (w : world S) (s : S)
    (config : Config) (file : File) :
  missing (access_key config) || missing (access_secret config) = false ->
  exists now signature answer,
    let timestamp := floor (div now (of_Z 1000)) in
    let calls := fst (run w (identify config (Some file)) s) in
    let reply := snd (run w (identify config (Some file)) s) in
    digests calls =
      [(text (access_secret config),
        stringToSign (endpoint config) (text (access_key config)) timestamp,
        signature)] /\
    requests calls =
      [("https://" ++ host config ++ endpoint config, "POST",
        formData file (text (access_key config)) signature timestamp,
        answer)] /\
    (reply, errors_logged calls) =
      match answer with
      | Throw e => (internal e, 1)
      | Ok response =>
          match json response with
          | Throw e => (internal e, 1)
          | Ok data =>
              if ok response then
                match parseACRCloudResponse data with
                | Throw e => (internal e, 1)
                | Ok out => ({| statusCode := 200; body := out |}, 0)
                end
              else (rejected response data, 1)
          end
      end.
Proof.
  intros H. unfold identify. rewrite H. cbn.
  answer w. answer w. exists x0.
  answer w. exists x1. answer w. answer w. exists x3.
  destruct x3 as [response | error]; cbn.
  - destruct (json response) as [data | error]; cbn.
    + answer w. destruct (ok response); cbn.
      * destruct (parseACRCloudResponse data); cbn.
        -- repeat split.
        -- answer w. repeat split.
      * answer w. repeat split.
    + answer w. repeat split.
  - answer w. repeat split.
Qed.

(** Every answer of the handler to a request it has forwarded: an
    exception of [fetch], of [response.json()] or of
    [parseACRCloudResponse] is answered 500 with the exception's message; a
    reply whose status is not 2xx is passed on with that status and the
    reply as details, without being parsed; anything else is answered 200
    with the outcome.  The error is logged once in each case but the
    last. *)
Theorem reply_of_forwarded_request
    (S : Type) (w : world S) (s : S) (config : Config) (file : option File)
    (url method : string) (form : list part) (answer : result Response) :
  let calls := fst (run w (identify config file) s) in
  let reply := snd (run w (identify config file) s) in
  In (url, method, form, answer) (requests calls) ->
  (forall e, answer = Throw e ->
     reply = internal e /\ errors_logged calls = 1) /\
  (forall response e, answer = Ok response -> json response = Throw e ->
     reply = internal e /\ errors_logged calls = 1) /\
  (forall response data, answer = Ok response -> json response = Ok data ->
     ok response = false ->
     reply = rejected response data /\ errors_logged calls = 1) /\
  (forall response data e, answer = Ok response -> json response = Ok data ->
     ok response = true -> parseACRCloudResponse data = Throw e ->
     reply = internal e /\ errors_logged calls = 1) /\
  (forall response data out, answer = Ok response -> json response = Ok data ->
     ok response = true -> parseACRCloudResponse data = Ok out ->
     reply = {| statusCode := 200; body := out |} /\ errors_logged calls = 0).
Proof.
  intros calls reply Hin. subst calls reply.
  destruct file as [file |];
    [destruct (missing (access_key config) || missing (access_secret config))
       eqn:M |].
  - destruct (identify_refused config (Some file)) as [r E]; [now right |].
    rewrite E in Hin. contradiction Hin.
  - destruct (identify_forwarded w s config file M)
      as (now & sig & ans & _ & Hr & Ha).
    cbv zeta in Hr, Ha. rewrite Hr in Hin.
    destruct Hin as [Hin | []]. injection Hin as _ _ _ <-.
    split; [| split; [| split; [| split]]].
    + intros e ->. injection Ha as Ha1 Ha2. now split.
    + intros response e -> J. rewrite J in Ha.
      injection Ha as Ha1 Ha2. now split.
    + intros response data -> J O. rewrite J, O in Ha.
      injection Ha as Ha1 Ha2. now split.
    + intros response data e -> J O P. rewrite J, O, P in Ha.
      injection Ha as Ha1 Ha2. now split.
    + intros response data out -> J O P. rewrite J, O, P in Ha.
      injection Ha as Ha1 Ha2. now split.
  - contradiction Hin.
Qed.

Lemma reply_of_forwarded_request_witness :
  let config := acrcloudConfig (Some "abc123") (Some "s3cret") in
  let calls := fst (run sample_world (identify config (Some sample_file))
                      (of_Z 1700000000999)) in
  let given := snd (run sample_world (identify config (Some sample_file))
                      (of_Z 1700000000999)) in
  let answer := Ok {| ok := true; status := 200;
                      json := Ok (reply 1001 (VArr [])) |} in
  (forall e, answer = Throw e ->
     given = internal e /\ errors_logged calls = 1) /\
  (forall response e, answer = Ok response -> json response = Throw e ->
     given = internal e /\ errors_logged calls = 1) /\
  (forall response data, answer = Ok response -> json response = Ok data ->
     ok response = false ->
     given = rejected response data /\ errors_logged calls = 1) /\
  (forall response data e, answer = Ok response -> json response = Ok data ->
     ok response = true -> parseACRCloudResponse data = Throw e ->
     given = internal e /\ errors_logged calls = 1) /\
  (forall response data out, answer = Ok response -> json response = Ok data ->
     ok response = true -> parseACRCloudResponse data = Ok out ->
     given = {| statusCode := 200; body := out |} /\ errors_logged calls = 0).
Proof.
  apply (reply_of_forwarded_request number sample_world (of_Z 1700000000999)
           (acrcloudConfig (Some "abc123") (Some "s3cret")) (Some sample_file)
           "https://identify-ap-southeast-1.acrcloud.com/v1/identify" "POST"
           (formData sample_file "abc123" "c2lnbmF0dXJl" (of_Z 1700000000))).
  vm_compute. left. reflexivity.
Defined.

Lemma or_default_not_empty (s default : string) :
  default <> "" -> or_default s default <> "".
Proof.
  intros D. unfold or_default.
  destruct (String.eqb_spec s ""); assumption.
Qed.

(** A request reaches the provider only when a file was uploaded and both
    credentials are non-empty strings.  It is then the only one of the run:
    a POST to the configured host and path whose form carries the upload
    under [sample], with a file name and a content type that are never
    empty, the size of the upload, the access key, the literals [audio]
    and [1], and as signature the digest that was computed in that run,
    with the secret as key. *)
Theorem outbound_request
    (S : Type) (w : world S) (s : S) (config : Config) (file : option File)
    (url method : string) (form : list part) (answer : result Response) :
  let calls := fst (run w (identify config file) s) in
  In (url, method, form, answer) (requests calls) ->
  exists key secret upload data signature filename contentType,
    access_key config = Some key /\ key <> "" /\
    access_secret config = Some secret /\ secret <> "" /\
    file = Some upload /\
    requests calls = [(url, method, form, answer)] /\
    digests calls = [(secret, data, signature)] /\
    url = "https://" ++ host config ++ endpoint config /\
    method = "POST" /\
    file_part form = Some ("sample", buffer upload, filename, contentType) /\
    filename = or_default (originalname upload) "audio.wav" /\
    filename <> "" /\
    contentType = or_default (mimetype upload) "audio/wav" /\
    contentType <> "" /\
    field "sample_bytes" form = Some (to_string (of_Z (Z.of_N (size upload)))) /\
    field "access_key" form = Some key /\
    field "data_type" form = Some "audio" /\
    field "signature_version" form = Some "1" /\
    field "signature" form = Some signature.
Proof.
  intros calls Hin. subst calls.
  destruct file as [file |];
    [destruct (missing (access_key config) || missing (access_secret config))
       eqn:M |].
  - destruct (identify_refused config (Some file)) as [r E]; [now right |].
    rewrite E in Hin. contradiction Hin.
  - destruct (identify_forwarded w s config file M)
      as (now & sig & ans & Hd & Hr & _).
    cbv zeta in Hd, Hr. rewrite Hr in Hin |- *. rewrite Hd.
    destruct Hin as [Hin | []]. injection Hin as <- <- <- <-.
    apply orb_false_iff in M. destruct M as [Mk Ms].
    destruct (missing_false _ Mk) as (key & Ek & Nk & ->).
    destruct (missing_false _ Ms) as (secret & Es & Ns & ->).
    exists key, secret, file. do 4 eexists.
    repeat split; try reflexivity; try assumption;
      apply or_default_not_empty; discriminate.
  - contradiction Hin.
Qed.

Lemma outbound_request_witness :
  let config := acrcloudConfig (Some "abc123") (Some "s3cret") in
  let calls := fst (run sample_world (identify config (Some sample_file))
                      (of_Z 1700000000999)) in
  let url := "https://identify-ap-southeast-1.acrcloud.com/v1/identify" in
  let form := formData sample_file "abc123" "c2lnbmF0dXJl" (of_Z 1700000000) in
  let answer := Ok {| ok := true; status := 200;
                      json := Ok (reply 1001 (VArr [])) |} in
  exists key secret upload data signature filename contentType,
    access_key config = Some key /\ key <> "" /\
    access_secret config = Some secret /\ secret <> "" /\
    Some sample_file = Some upload /\
    requests calls = [(url, "POST", form, answer)] /\
    digests calls = [(secret, data, signature)] /\
    url = "https://" ++ host config ++ endpoint config /\
    "POST" = "POST" /\
    file_part form = Some ("sample", buffer upload, filename, contentType) /\
    filename = or_default (originalname upload) "audio.wav" /\
    filename <> "" /\
    contentType = or_default (mimetype upload) "audio/wav" /\
    contentType <> "" /\
    field "sample_bytes" form = Some (to_string (of_Z (Z.of_N (size upload)))) /\
    field "access_key" form = Some key /\
    field "data_type" form = Some "audio" /\
    field "signature_version" form = Some "1" /\
    field "signature" form = Some signature.
Proof.
  apply (outbound_request number sample_world (of_Z 1700000000999)
           (acrcloudConfig (Some "abc123") (Some "s3cret")) (Some sample_file)).
  vm_compute. left. reflexivity.
Defined.

(** The signer is only ever given the configured secret, which is then not
    empty, and the canonical string of the configured access key, which is
    not empty either; and the digest it returns is the signature of the
    one request of the run. *)
Theorem signer_gets_the_configured_secret
    (S : Type) (w : world S) (s : S) (config : Config) (file : option File)
    (secret data digest : string) :
  let calls := fst (run w (identify config file) s) in
  In (secret, data, digest) (digests calls) ->
  access_secret config = Some secret /\ secret <> "" /\
  exists key timestamp url method form answer,
    access_key config = Some key /\ key <> "" /\
    data = stringToSign (endpoint config) key timestamp /\
    requests calls = [(url, method, form, answer)] /\
    field "signature" form = Some digest.
Proof.
  intros calls Hin. subst calls.
  destruct file as [file |];
    [destruct (missing (access_key config) || missing (access_secret config))
       eqn:M |].
  - destruct (identify_refused config (Some file)) as [r E]; [now right |].
    rewrite E in Hin. contradiction Hin.
  - destruct (identify_forwarded w s config file M)
      as (now & sig & ans & Hd & Hr & _).
    cbv zeta in Hd, Hr. rewrite Hd in Hin. rewrite Hr.
    destruct Hin as [Hin | []]. injection Hin as <- <- <-.
    apply orb_false_iff in M. destruct M as [Mk Ms].
    destruct (missing_false _ Mk) as (key & Ek & Nk & ->).
    destruct (missing_false _ Ms) as (sec & Es & Ns & ->).
    repeat split; try assumption.
    exists key. do 5 eexists. repeat split; try reflexivity; assumption.
  - contradiction Hin.
Qed.

Lemma signer_gets_the_configured_secret_witness :
  let config := acrcloudConfig (Some "abc123") (Some "s3cret") in
  let calls := fst (run sample_world (identify config (Some sample_file))
                      (of_Z 1700000000999)) in
  access_secret config = Some "s3cret" /\ "s3cret" <> "" /\
  exists key timestamp url method form answer,
    access_key config = Some key /\ key <> "" /\
    stringToSign "/v1/identify" "abc123" (of_Z 1700000000) =
      stringToSign (endpoint config) key timestamp /\
    requests calls = [(url, method, form, answer)] /\
    field "signature" form = Some "c2lnbmF0dXJl".
Proof.
  apply (signer_gets_the_configured_secret number sample_world
           (of_Z 1700000000999)
           (acrcloudConfig (Some "abc123") (Some "s3cret")) (Some sample_file)).
  vm_compute. left. reflexivity.
Defined.

(** *** The health check and the start-up messages *)

Lemma configured_spec (config : Config) :
  configured config =
  negb (missing (access_key config) || missing (access_secret config)).
Proof.
  unfold configured, both.
  destruct (missing (access_key config)) eqn:M; [rewrite M |]; reflexivity.
Qed.

(** The health check answers 200 with [status: 'ok'], and its
    [acrcloud_configured] is [true] exactly when both credentials are
    non-empty strings, that is exactly when an upload is forwarded to the
    provider; it is [false] exactly when an upload is refused as not
    configured. *)
Theorem health_tells_whether_uploads_are_forwarded
    (config : Config) (now : string) (upload : File) :
  statusCode (health config now) = 200%Z /\
  get (body (health config now)) "status" = Ok (VStr "ok") /\
  (get (body (health config now)) "acrcloud_configured" = Ok (VBool true) <->
   exists key secret,
     access_key config = Some key /\ key <> "" /\
     access_secret config = Some secret /\ secret <> "") /\
  (forall (S : Type) (w : world S) (s : S),
     get (body (health config now)) "acrcloud_configured" = Ok (VBool true) <->
     requests (fst (run w (identify config (Some upload)) s)) <> []) /\
  (get (body (health config now)) "acrcloud_configured" = Ok (VBool false) <->
   identify config (Some upload) = Ret not_configured).
Proof.
  split; [reflexivity |]. split; [reflexivity |].
  cbn [health body get lookup String.eqb Ascii.eqb Bool.eqb].
  rewrite configured_spec.
  destruct (missing (access_key config) || missing (access_secret config)) eqn:M;
    cbn [negb].
  - destruct (identify_refused config (Some upload)) as [r E]; [now right |].
    assert (N : identify config (Some upload) = Ret not_configured).
    { unfold identify. rewrite M. reflexivity. }
    split; [| split].
    + split; [discriminate |].
      intros (key & secret & Ek & Nk & Es & Ns).
      rewrite Ek, Es in M. cbn in M.
      destruct (String.eqb_spec key ""); [contradiction |].
      destruct (String.eqb_spec secret ""); [contradiction | discriminate M].
    + intros S w s. rewrite N. cbn. split; [discriminate | intros F; now elim F].
    + split; [intros _; exact N | reflexivity].
  - pose proof M as M'. apply orb_false_iff in M'. destruct M' as [Mk Ms].
    destruct (missing_false _ Mk) as (key & Ek & Nk & _).
    destruct (missing_false _ Ms) as (secret & Es & Ns & _).
    split; [| split].
    + split; [intros _; exists key, secret; repeat split; assumption | reflexivity].
    + intros S w s.
      destruct (identify_forwarded w s config upload M)
        as (t & sig & ans & _ & Hr & _).
      cbv zeta in Hr. rewrite Hr. split; [discriminate | reflexivity].
    + split; [discriminate |].
      unfold identify. rewrite M. discriminate.
Qed.

(** The start-up messages name port 3000 when [PORT] is unset or empty and
    [PORT] itself otherwise, and their last line prints the flag that the
    health check reports. *)
Theorem listening_reports_the_health_flag
    (S : Type) (w : world S) (s : S) (PORT : env_value) (config : Config)
    (now : string) :
  (missing PORT = true -> port PORT = "3000") /\
  (forall p, PORT = Some p -> p <> "" -> port PORT = p) /\
  exists flag,
    get (body (health config now)) "acrcloud_configured" = Ok (VBool flag) /\
    logged (fst (run w (listening PORT config) s)) =
      ["Server running on port " ++ port PORT;
       "Health check: http://localhost:" ++ port PORT ++ "/api/health";
       "ACRCloud configured: " ++ (if flag then "true" else "false")].
Proof.
  split; [| split].
  - intros M. unfold port. rewrite M. vm_compute. reflexivity.
  - intros p -> Np. unfold port. cbn.
    destruct (String.eqb_spec p ""); [contradiction | reflexivity].
  - exists (configured config). split; [reflexivity |].
    unfold listening. cbn. answer w. answer w. answer w. reflexivity.
Qed.
